(** * Repository Access Gateway: backend/src/controllers/github.controller.js

    A shallow embedding of the three Express handlers of the controller
    ([getRepositories], [getRepositoryBranches], [validateRepository]) and the
    properties its specification states about them.

    - JavaScript values that reach the handlers (request body, parsed JSON
      bodies of the upstream API, response bodies) are [JsVal].
    - The Supabase client and the two HTTP clients (axios, fetch) are
      collaborators whose code is not part of the controller: the first is an
      interface ([Supabase]) with a table-backed instance, the second an
      oracle ([Upstream]) answering each request.
    - A handler is a computation in [Js], a state-and-exception monad over the
      persisted table and the chronological trace of calls made to the
      collaborators.  [console.log] calls are not traced.
    - A handler starts from [userId], the caller identity its first line
      reads from [req.user] (set by the authentication middleware), and ends
      with the status and the value it hands to [res.status(..).json(..)]. *)

From Stdlib Require Import List String Ascii ZArith Bool Lia.
Import ListNotations.
Open Scope string_scope.
Open Scope Z_scope.
Set Warnings "-register-all".

(** ** JavaScript values *)

(** JSON-shaped values.  Numbers are the integers the controller handles
    (identifiers, HTTP status codes); objects are ordered key/value lists as
    [JSON.parse] builds them and [res.json] prints them, a key occurring once
    ([assoc] reads its first occurrence). *)
Inductive JsVal : Type :=
| JUndefined
| JNull
| JBool (b : bool)
| JNum (n : Z)
| JStr (s : string)
| JArr (items : list JsVal)
| JObj (fields : list (string * JsVal)).

(** What a [catch] clause receives: [error.message] and, for an axios error
    that carries an HTTP response, [error.response.status]. *)
Record JsError : Type := mkError {
  message : string;
  response_status : option Z
}.

Definition TypeError (msg : string) : JsError := mkError msg None.

Inductive Completion (A : Type) : Type :=
| Normal (a : A)
| Thrown (e : JsError).
Arguments Normal {A} a.
Arguments Thrown {A} e.

Fixpoint assoc (k : string) (fields : list (string * JsVal)) : option JsVal :=
  match fields with
  | [] => None
  | (k', v) :: rest => if String.eqb k k' then Some v else assoc k rest
  end.

Definition own_property (k : string) (fields : list (string * JsVal)) : JsVal :=
  match assoc k fields with
  | Some v => v
  | None => JUndefined
  end.

(** [v.k]: a TypeError on [undefined] and [null]; the own property of an
    object; [length] of strings and arrays; [undefined] otherwise. *)
Definition get_prop (v : JsVal) (k : string) : Completion JsVal :=
  match v with
  | JUndefined =>
      Thrown (TypeError ("Cannot read properties of undefined (reading '" ++ k ++ "')"))
  | JNull =>
      Thrown (TypeError ("Cannot read properties of null (reading '" ++ k ++ "')"))
  | JObj fields => Normal (own_property k fields)
  | JStr s =>
      Normal (if String.eqb k "length" then JNum (Z.of_nat (String.length s)) else JUndefined)
  | JArr items =>
      Normal (if String.eqb k "length" then JNum (Z.of_nat (List.length items)) else JUndefined)
  | JBool _ | JNum _ => Normal JUndefined
  end.

(** ** The URL pattern [/github\.com\/([^\/]+)\/([^\/]+)/] *)

Module Regex.

(** The pieces the pattern is made of: a literal, and the capturing group
    [([^\/]+)], greedy. *)
Inductive Item : Type :=
| Lit (s : string)
| NotSlashPlus.

Definition urlPattern : list Item :=
  [Lit "github.com/"; NotSlashPlus; Lit "/"; NotSlashPlus].

Definition is_slash (c : ascii) : bool := Ascii.eqb c "/"%char.

Fixpoint strip_prefix (p s : string) : option string :=
  match p, s with
  | EmptyString, _ => Some s
  | String a p', String b s' => if Ascii.eqb a b then strip_prefix p' s' else None
  | String _ _, EmptyString => None
  end.

Definition snoc (s : string) (c : ascii) : string := s ++ String c EmptyString.

Section Backtracking.
Variable R : Type.
(** The rest of the pattern, given the text captured by the group and the
    remaining input. *)
Variable k : string -> string -> option R.

(** Greedy repetition of [[^\/]]: take one more character if possible and
    come back to the shorter capture when the rest of the pattern fails. *)
Fixpoint star (cap s : string) : option R :=
  match s with
  | String c r =>
      if is_slash c then k cap s
      else match star (snoc cap c) r with
           | Some m => Some m
           | None => k cap s
           end
  | EmptyString => k cap s
  end.

Definition plus (s : string) : option R :=
  match s with
  | String c r => if is_slash c then None else star (String c EmptyString) r
  | EmptyString => None
  end.
End Backtracking.
Arguments star {R} k cap s.
Arguments plus {R} k s.

(** Match the items at the start of [s]; the result is the list of captures. *)
Fixpoint exec (p : list Item) (caps : list string) (s : string) : option (list string) :=
  match p with
  | [] => Some caps
  | Lit l :: p' =>
      match strip_prefix l s with
      | Some r => exec p' caps r
      | None => None
      end
  | NotSlashPlus :: p' => plus (fun cap r => exec p' (caps ++ [cap]) r) s
  end.

(** [String.prototype.match] with a pattern without flags: the first start
    index at which the pattern matches. *)
Fixpoint search (p : list Item) (s : string) : option (list string) :=
  match exec p [] s with
  | Some caps => Some caps
  | None =>
      match s with
      | EmptyString => None
      | String _ r => search p r
      end
  end.

(** The longest prefix without a slash, and what follows it. *)
Fixpoint span_not_slash (s : string) : string * string :=
  match s with
  | EmptyString => (EmptyString, EmptyString)
  | String c r =>
      if is_slash c then (EmptyString, s)
      else let (a, b) := span_not_slash r in (String c a, b)
  end.

Fixpoint no_slash (s : string) : Prop :=
  match s with
  | EmptyString => True
  | String c r => is_slash c = false /\ no_slash r
  end.

(** The pattern occurs in [s]: some substring is [github.com/], a non-empty
    slash-free owner, a slash, a non-empty slash-free repository name. *)
Definition occurs (s : string) : Prop :=
  exists pre owner repo post,
    s = pre ++ "github.com/" ++ owner ++ "/" ++ repo ++ post
    /\ owner <> "" /\ repo <> "" /\ no_slash owner /\ no_slash repo.

(** What [exec urlPattern] comes to once the backtracking is resolved: both
    groups take their longest run (see [RegexFacts.exec_urlPattern]). *)
Definition match_at (s : string) : option (list string) :=
  match strip_prefix "github.com/" s with
  | None => None
  | Some r0 =>
      let (owner, r1) := span_not_slash r0 in
      match owner, strip_prefix "/" r1 with
      | String _ _, Some r2 =>
          match fst (span_not_slash r2) with
          | String _ _ as repo => Some [owner; repo]
          | EmptyString => None
          end
      | _, _ => None
      end
  end.

End Regex.

(** [const [, owner, repo] = match] *)
Definition owner_repo (caps : list string) : string * string :=
  (nth 0 caps "", nth 1 caps "").

(** ** The user table and the Supabase client *)

(** A row of [users]; [github_access_token] is the nullable column. *)
Record UserRow : Type := mkUser {
  id : string;
  firebase_uid : string;
  github_access_token : option string;
  github_username : string
}.

Inductive Column : Type := col_firebase_uid | col_id.

(** The [{ data, error }] pair a query resolves to. *)
Record QueryResult : Type := mkQuery {
  data : option UserRow;
  error : option string
}.

(** What the controller asks of the client:
    [from('users').select(cols).eq(col, v).single()] and
    [from('users').update({ github_access_token: null }).eq(col, v)]. *)
Class Supabase (DB : Type) : Type := {
  select_single : DB -> string -> Column -> string -> QueryResult;
  update_token_null : DB -> Column -> string -> DB
}.

Definition Table : Type := list UserRow.

Definition column_eqb (c : Column) (v : string) (u : UserRow) : bool :=
  match c with
  | col_firebase_uid => String.eqb (firebase_uid u) v
  | col_id => String.eqb (id u) v
  end.

(** [.single()] yields the row when exactly one matches and an error (with
    [data: null]) for none or several.  The handlers read no column but
    [github_access_token], so the selected row is returned whole. *)
Definition table_select_single (t : Table) (cols : string) (c : Column) (v : string)
  : QueryResult :=
  match filter (column_eqb c v) t with
  | [u] => mkQuery (Some u) None
  | _ => mkQuery None (Some "PGRST116")
  end.

Definition null_token (u : UserRow) : UserRow :=
  mkUser (id u) (firebase_uid u) None (github_username u).

Definition table_update_token_null (t : Table) (c : Column) (v : string) : Table :=
  map (fun u => if column_eqb c v u then null_token u else u) t.

#[export] Instance table_supabase : Supabase Table := {
  select_single := table_select_single;
  update_token_null := table_update_token_null
}.

(** ** The upstream API *)

Record Request : Type := mkRequest {
  url : string;
  params : list (string * string);
  authorization : string;
  accept : string
}.

(** axios resolves with [response.data] on a 2xx status and rejects
    otherwise, with [error.response] set when a response was received. *)
Inductive AxiosOutcome : Type :=
| AxiosResolved (response_data : JsVal)
| AxiosRejected (e : JsError).

(** fetch resolves with a response of any status; [response.json()] rejects
    when the body is not JSON ([None]). *)
Inductive FetchOutcome : Type :=
| FetchResolved (status : Z) (json : option JsVal)
| FetchRejected (e : JsError).

Record Upstream : Type := mkUpstream {
  axios : Request -> AxiosOutcome;
  fetch : Request -> FetchOutcome
}.

(** [response.ok] *)
Definition ok (status : Z) : bool := (200 <=? status) && (status <=? 299).

(** ** Effects *)

Inductive Event : Type :=
| DbSelectSingle (cols : string) (c : Column) (v : string)
| DbSelectLimit (cols : string) (limit : nat)
| DbUpdateTokenNull (c : Column) (v : string)
| GitHubCall (req : Request).

Definition is_github_call (e : Event) : bool :=
  match e with GitHubCall _ => true | _ => false end.

Definition is_db_lookup (e : Event) : bool :=
  match e with DbSelectSingle _ _ _ | DbSelectLimit _ _ => true | _ => false end.

Definition is_db_write (e : Event) : bool :=
  match e with DbUpdateTokenNull _ _ => true | _ => false end.

Definition is_select_by (c : Column) (e : Event) : bool :=
  match e, c with
  | DbSelectSingle _ col_firebase_uid _, col_firebase_uid => true
  | DbSelectSingle _ col_id _, col_id => true
  | _, _ => false
  end.

Definition count (p : Event -> bool) (tr : list Event) : nat :=
  List.length (filter p tr).

Record World (DB : Type) : Type := mkWorld {
  db : DB;
  trace : list Event
}.
Arguments mkWorld {DB} db trace.
Arguments db {DB} w.
Arguments trace {DB} w.

Definition Js (DB A : Type) : Type := World DB -> Completion A * World DB.

Section Monad.
Context {DB : Type} `{Supabase DB}.

Definition ret {A} (a : A) : Js DB A := fun w => (Normal a, w).

Definition throw {A} (e : JsError) : Js DB A := fun w => (Thrown e, w).

Definition bind {A B} (m : Js DB A) (f : A -> Js DB B) : Js DB B :=
  fun w =>
    match m w with
    | (Normal a, w') => f a w'
    | (Thrown e, w') => (Thrown e, w')
    end.

(** [try { m } catch (error) { h error }] *)
Definition try_catch {A} (m : Js DB A) (h : JsError -> Js DB A) : Js DB A :=
  fun w =>
    match m w with
    | (Normal a, w') => (Normal a, w')
    | (Thrown e, w') => h e w'
    end.

Definition lift {A} (c : Completion A) : Js DB A := fun w => (c, w).

Definition emit (e : Event) : Js DB unit :=
  fun w => (Normal tt, mkWorld (db w) (trace w ++ [e])).

Definition selectSingle (cols : string) (c : Column) (v : string) : Js DB QueryResult :=
  fun w =>
    (Normal (select_single (db w) cols c v),
     mkWorld (db w) (trace w ++ [DbSelectSingle cols c v])).

Definition selectLimit (cols : string) (n : nat) : Js DB unit :=
  emit (DbSelectLimit cols n).

Definition updateTokenNull (c : Column) (v : string) : Js DB unit :=
  fun w =>
    (Normal tt,
     mkWorld (update_token_null (db w) c v) (trace w ++ [DbUpdateTokenNull c v])).

Definition axiosCall (gh : Upstream) (req : Request) : Js DB JsVal :=
  fun w =>
    let w' := mkWorld (db w) (trace w ++ [GitHubCall req]) in
    match axios gh req with
    | AxiosResolved d => (Normal d, w')
    | AxiosRejected e => (Thrown e, w')
    end.

(** The awaited response: its status and its (lazily parsed) body. *)
Definition fetchCall (gh : Upstream) (req : Request) : Js DB (Z * option JsVal) :=
  fun w =>
    let w' := mkWorld (db w) (trace w ++ [GitHubCall req]) in
    match fetch gh req with
    | FetchResolved st body => (Normal (st, body), w')
    | FetchRejected e => (Thrown e, w')
    end.

(** [await response.json()] *)
Definition responseJson (body : option JsVal) : Js DB JsVal :=
  match body with
  | Some v => ret v
  | None => throw (mkError "Unexpected token in JSON" None)
  end.
End Monad.

Declare Scope js_scope.
Delimit Scope js_scope with js.
Notation "x <- m ;; k" := (bind m (fun x => k))
  (at level 61, m at next level, right associativity) : js_scope.
Notation "m ;;; k" := (bind m (fun _ => k))
  (at level 61, right associativity) : js_scope.
Open Scope js_scope.
Notation "' pat <- m ;; k" := (bind m (fun x => match x with pat => k end))
  (at level 61, pat pattern, m at next level, right associativity) : js_scope.

(** ** Responses *)

Record Response : Type := mkResponse {
  status : Z;
  body : JsVal
}.

(** The error strings of the three typed failures. *)
Definition GitHubAuthRequired : string := "GitHub authentication required".
Definition InvalidRepositoryUrl : string := "Invalid GitHub repository URL".
Definition RepositoryNotAccessible : string := "Repository not found or no access".

Definition json_error (e : string) : JsVal := JObj [("error", JStr e)].

Definition json_error_message (e m : string) : JsVal :=
  JObj [("error", JStr e); ("message", JStr m)].

Definition no_token_response : Response :=
  mkResponse 401
    (json_error_message GitHubAuthRequired
       "No GitHub access token found for your account. Please sign in with GitHub again.").

Definition token_rejected_response : Response :=
  mkResponse 401
    (json_error_message GitHubAuthRequired
       "Your GitHub token has expired or is invalid. Please reconnect your GitHub account.").

Definition github_accept : string := "application/vnd.github.v3+json".

(** ** Pieces shared by the handlers *)

(** Truthiness of [row?.github_access_token]: the row is there, its token is
    neither [null] nor the empty string. *)
Definition has_token (row : option UserRow) : bool :=
  match row with
  | Some u =>
      match github_access_token u with
      | Some (String _ _) => true
      | Some EmptyString => false
      | None => false
      end
  | None => false
  end.

(** [`token ${user.github_access_token}`] *)
Definition authorization_header (user : option UserRow) : Completion string :=
  match user with
  | None =>
      Thrown (TypeError "Cannot read properties of null (reading 'github_access_token')")
  | Some u =>
      Normal ("token " ++ match github_access_token u with
                          | Some t => t
                          | None => "null"
                          end)
  end.

(** The object literal [{ k1: v.k1, ..., kn: v.kn }]. *)
Fixpoint project (keys : list string) (v : JsVal) : Completion (list (string * JsVal)) :=
  match keys with
  | [] => Normal []
  | k :: ks =>
      match get_prop v k with
      | Thrown e => Thrown e
      | Normal x =>
          match project ks v with
          | Thrown e => Thrown e
          | Normal rest => Normal ((k, x) :: rest)
          end
      end
  end.

Definition repo_summary_keys : list string :=
  ["id"; "name"; "full_name"; "html_url"; "description"; "default_branch";
   "visibility"; "updated_at"].

Definition validated_repo_keys : list string :=
  ["id"; "name"; "full_name"; "default_branch"; "visibility"].

(** The callback of [repositories.map] in [getRepositories]. *)
Definition formatRepo (repo : JsVal) : Completion JsVal :=
  match project repo_summary_keys repo with
  | Normal fs => Normal (JObj fs)
  | Thrown e => Thrown e
  end.

Fixpoint map_items (f : JsVal -> Completion JsVal) (items : list JsVal)
  : Completion (list JsVal) :=
  match items with
  | [] => Normal []
  | x :: rest =>
      match f x with
      | Thrown e => Thrown e
      | Normal y =>
          match map_items f rest with
          | Thrown e => Thrown e
          | Normal ys => Normal (y :: ys)
          end
      end
  end.

(** [v.map(f)]: only an array has the method. *)
Definition array_map (f : JsVal -> Completion JsVal) (v : JsVal) : Completion JsVal :=
  match v with
  | JArr items =>
      match map_items f items with
      | Normal ys => Normal (JArr ys)
      | Thrown e => Thrown e
      end
  | JUndefined => Thrown (TypeError "Cannot read properties of undefined (reading 'map')")
  | JNull => Thrown (TypeError "Cannot read properties of null (reading 'map')")
  | JBool _ | JNum _ | JStr _ | JObj _ => Thrown (TypeError "repositories.map is not a function")
  end.

(** [repositoryUrl.match(urlPattern)]: only a string has the method. *)
Definition string_match (v : JsVal) (p : list Regex.Item) : Completion (option (list string)) :=
  match v with
  | JStr s => Normal (Regex.search p s)
  | JUndefined => Thrown (TypeError "Cannot read properties of undefined (reading 'match')")
  | JNull => Thrown (TypeError "Cannot read properties of null (reading 'match')")
  | JBool _ | JNum _ | JArr _ | JObj _ =>
      Thrown (TypeError "repositoryUrl.match is not a function")
  end.

(** [error.response && error.response.status === 401] *)
Definition is_401 (e : JsError) : bool :=
  match response_status e with
  | Some s => s =? 401
  | None => false
  end.

(** [error.response?.status || 500] *)
Definition status_or_500 (e : JsError) : Z :=
  match response_status e with
  | Some s => if s =? 0 then 500 else s
  | None => 500
  end.

Definition is_some {A} (o : option A) : bool :=
  match o with Some _ => true | None => false end.

(** ** The handlers *)

Section Handlers.
Context {DB : Type} `{Supabase DB}.
Variable gh : Upstream.

(** Lines 18-48 and, word for word, 143-173: the pair [(user, tokenFound)]
    after the lookup by [firebase_uid] and, in its [else] branch, by [id]. *)
Definition findUserToken (userId : string) : Js DB (option UserRow * bool) :=
  userByFirebaseUid <- selectSingle "*" col_firebase_uid userId ;;
  if has_token (data userByFirebaseUid) then
    ret (data userByFirebaseUid, true)
  else
    userById <- selectSingle "*" col_id userId ;;
    if has_token (data userById) then ret (data userById, true)
    else ret (None, false).

(** Lines 58-71 and 183-196: the listing of ten users for the log, then the
    401 response. *)
Definition tokenNotFound : Js DB Response :=
  selectLimit "id, firebase_uid, github_username" 10 ;;;
  ret no_token_response.

Definition listReposRequest (auth : string) : Request :=
  mkRequest "https://api.github.com/user/repos"
    [("sort", "updated"); ("per_page", "100")] auth github_accept.

(** Lines 73-114: the inner [try]/[catch].  [inr] is the array left in
    [repositories]; [inl] is a response the [catch] clause returned. *)
Definition fetchRepositories (userId : string) (user : option UserRow)
  : Js DB (Response + JsVal) :=
  try_catch
    (auth <- lift (authorization_header user) ;;
     repositories <- axiosCall gh (listReposRequest auth) ;;
     _ <- lift (get_prop repositories "length") ;;
     ret (inr repositories))
    (fun error =>
       if is_401 error then
         updateTokenNull col_firebase_uid userId ;;;
         ret (inl token_rejected_response)
       else
         ret (inl (mkResponse (status_or_500 error)
                     (json_error_message "Failed to fetch repositories from GitHub"
                        (message error))))).

Definition getRepositories (userId : string) : Js DB Response :=
  try_catch
    ('(user, tokenFound) <- findUserToken userId ;;
     if negb tokenFound then tokenNotFound
     else
       fetched <- fetchRepositories userId user ;;
       match fetched with
       | inl response => ret response
       | inr repositories =>
           formattedRepos <- lift (array_map formatRepo repositories) ;;
           ret (mkResponse 200 (JObj [("repositories", formattedRepos)]))
       end)
    (fun _ => ret (mkResponse 500 (json_error "Failed to fetch repositories"))).

Definition branchesRequest (owner repo auth : string) : Request :=
  mkRequest ("https://api.github.com/repos/" ++ owner ++ "/" ++ repo ++ "/branches")
    [] auth github_accept.

Definition getRepositoryBranches (userId owner repo : string) : Js DB Response :=
  try_catch
    ('(user, tokenFound) <- findUserToken userId ;;
     if negb tokenFound then tokenNotFound
     else
       auth <- lift (authorization_header user) ;;
       '(st, payload) <- fetchCall gh (branchesRequest owner repo auth) ;;
       if negb (ok st) then
         _ <- responseJson payload ;;
         ret (mkResponse st (json_error "Failed to fetch branches from GitHub"))
       else
         branches <- responseJson payload ;;
         ret (mkResponse 200 (JObj [("branches", branches)])))
    (fun _ => ret (mkResponse 500 (json_error "Failed to fetch repository branches"))).

Definition repoRequest (owner repo auth : string) : Request :=
  mkRequest ("https://api.github.com/repos/" ++ owner ++ "/" ++ repo)
    [] auth github_accept.

(** [reqBody] is [req.body]. *)
Definition validateRepository (userId : string) (reqBody : JsVal) : Js DB Response :=
  try_catch
    (repositoryUrl <- lift (get_prop reqBody "repositoryUrl") ;;
     matched <- lift (string_match repositoryUrl Regex.urlPattern) ;;
     match matched with
     | None => ret (mkResponse 400 (json_error InvalidRepositoryUrl))
     | Some caps =>
         let (owner, repo) := owner_repo caps in
         q <- selectSingle "github_access_token" col_firebase_uid userId ;;
         if is_some (error q) || negb (is_some (data q)) || negb (has_token (data q)) then
           ret (mkResponse 401 (json_error GitHubAuthRequired))
         else
           auth <- lift (authorization_header (data q)) ;;
           '(st, payload) <- fetchCall gh (repoRequest owner repo auth) ;;
           if negb (ok st) then
             ret (mkResponse 403 (json_error RepositoryNotAccessible))
           else
             repoData <- responseJson payload ;;
             summary <- lift (project validated_repo_keys repoData) ;;
             ret (mkResponse 200
                    (JObj [("valid", JBool true); ("repository", JObj summary)]))
     end)
    (fun _ => ret (mkResponse 500 (json_error "Failed to validate repository"))).
End Handlers.

(** Run a handler on a table, from an empty trace: the response sent (or the
    exception that escaped), the table and the calls made. *)
Definition run {DB A} (m : Js DB A) (d : DB) : Completion A * World DB :=
  m (mkWorld d []).

Definition response_of {DB} (r : Completion Response * World DB) : option Response :=
  match fst r with
  | Normal resp => Some resp
  | Thrown _ => None
  end.

Definition final_db {DB} (r : Completion Response * World DB) : DB := db (snd r).
Definition calls {DB} (r : Completion Response * World DB) : list Event := trace (snd r).


(** ** Vocabulary of the specification *)

(** The lookup found a row whose token is not null. *)
Definition nonnull_token (q : QueryResult) (t : string) : Prop :=
  exists u, data q = Some u /\ github_access_token u = Some t.

(** The lookup found a row whose token is neither null nor empty. *)
Definition usable_token (q : QueryResult) (t : string) : Prop :=
  nonnull_token q t /\ t <> "".

(** A response with the given status whose body carries the given [error]. *)
Definition is_error_response (r : option Response) (st : Z) (err : string) : Prop :=
  exists resp,
    r = Some resp /\ status resp = st
    /\ get_prop (body resp) "error" = Normal (JStr err).

(** The calls [tr] of a lister follow the two-step precedence: a usable token
    under [firebase_uid] is sent upstream and [id] is never queried;
    otherwise [id] is queried next and its usable token, if any, is sent. *)
Definition follows_precedence (byFirebaseUid byId : QueryResult) (userId : string)
  (tr : list Event) : Prop :=
  (forall t, usable_token byFirebaseUid t ->
     count (is_select_by col_id) tr = 0%nat
     /\ exists req rest,
          tr = DbSelectSingle "*" col_firebase_uid userId :: GitHubCall req :: rest
          /\ authorization req = "token " ++ t)
  /\ ((forall t, ~ usable_token byFirebaseUid t) ->
      exists rest,
        tr = DbSelectSingle "*" col_firebase_uid userId
               :: DbSelectSingle "*" col_id userId :: rest
        /\ forall t, usable_token byId t ->
             exists req rest',
               rest = GitHubCall req :: rest' /\ authorization req = "token " ++ t).

(** Credential resolution as section 4.1 words it: the token under the
    external-identity key, else the token under the internal id. *)
Definition resolved_token {DB : Type} `{Supabase DB} (d : DB) (userId t : string) : Prop :=
  usable_token (select_single d "*" col_firebase_uid userId) t
  \/ ((forall t', ~ usable_token (select_single d "*" col_firebase_uid userId) t')
      /\ usable_token (select_single d "*" col_id userId) t).

(** The summary of one repository object: the listed keys, each with the
    value the object has for it ([undefined] when it has none). *)
Definition summary_of (keys : list string) (fields : list (string * JsVal)) : JsVal :=
  JObj (map (fun k => (k, own_property k fields)) keys).

(** ** Sample data *)

Definition alice : UserRow := mkUser "42" "fb-alice" (Some "gho_alice") "alice".
Definition bob : UserRow := mkUser "43" "fb-bob" None "bob".
Definition carol : UserRow := mkUser "44" "fb-carol" (Some "") "carol".

Definition sample_users : Table := [alice; bob; carol].

(** An upstream that rejects every token. *)
Definition upstream_401 : Upstream :=
  mkUpstream
    (fun _ => AxiosRejected (mkError "Request failed with status code 401" (Some 401)))
    (fun _ => FetchResolved 401 (Some (JObj [("message", JStr "Bad credentials")]))).

Definition widgets : list (string * JsVal) :=
  [("id", JNum 1); ("name", JStr "widgets"); ("full_name", JStr "acme/widgets");
   ("private", JBool false); ("default_branch", JStr "main");
   ("visibility", JStr "public"); ("forks", JNum 3)].

Definition gadgets : list (string * JsVal) :=
  [("id", JNum 2); ("name", JStr "gadgets"); ("html_url", JStr "https://github.com/acme/gadgets")].

(** An upstream that knows two repositories. *)
Definition upstream_ok : Upstream :=
  mkUpstream
    (fun _ => AxiosResolved (JArr [JObj widgets; JObj gadgets]))
    (fun _ => FetchResolved 200 (Some (JObj widgets))).

(** An upstream on which no repository is found. *)
Definition upstream_404 : Upstream :=
  mkUpstream
    (fun _ => AxiosRejected (mkError "Request failed with status code 404" (Some 404)))
    (fun _ => FetchResolved 404 (Some (JObj [("message", JStr "Not Found")]))).

Definition acme_widgets_body : JsVal :=
  JObj [("repositoryUrl", JStr "https://github.com/acme/widgets")].

(** ** Further vocabulary *)

(** The pattern matches at the very start of [s]. *)
Definition pattern_at_start (s : string) : Prop :=
  exists owner repo post,
    s = "github.com/" ++ owner ++ "/" ++ repo ++ post
    /\ owner <> "" /\ repo <> "" /\ Regex.no_slash owner /\ Regex.no_slash repo.

(** [v == null]: the values on which reading a property throws. *)
Definition nullish (v : JsVal) : bool :=
  match v with
  | JUndefined | JNull => true
  | JBool _ | JNum _ | JStr _ | JArr _ | JObj _ => false
  end.


(** What the update does to one row: [update({ github_access_token: null })]
    where [.eq(c, v)] holds. *)
Definition clear_if (c : Column) (v : string) (u : UserRow) : UserRow :=
  if column_eqb c v u then null_token u else u.

(** ** Further sample data *)

(** An upstream that cannot be reached. *)
Definition upstream_down : Upstream :=
  mkUpstream
    (fun _ => AxiosRejected (mkError "getaddrinfo ENOTFOUND api.github.com" None))
    (fun _ => FetchRejected (mkError "fetch failed" None)).

(** An upstream that is rate limiting. *)
Definition upstream_403 : Upstream :=
  mkUpstream
    (fun _ => AxiosRejected (mkError "Request failed with status code 403" (Some 403)))
    (fun _ => FetchResolved 403 (Some (JObj [("message", JStr "API rate limit exceeded")]))).

(** An upstream whose list has a hole. *)
Definition upstream_null_item : Upstream :=
  mkUpstream
    (fun _ => AxiosResolved (JArr [JObj widgets; JNull]))
    (fun _ => FetchResolved 200 (Some JNull)).

Definition main_branch : JsVal :=
  JObj [("name", JStr "main"); ("protected", JBool true)].

Definition upstream_branches : Upstream :=
  mkUpstream
    (fun _ => AxiosResolved (JArr []))
    (fun _ => FetchResolved 200 (Some (JArr [main_branch]))).


(** * Properties *)

(** ** The URL pattern *)

Module RegexFacts.
Import Regex.

Lemma append_empty_r (s : string) : s ++ "" = s.
Proof. induction s as [|c s IH]; simpl; [reflexivity | now rewrite IH]. Qed.

Lemma append_assoc (a b c : string) : (a ++ b) ++ c = a ++ (b ++ c).
Proof. induction a as [|x a IH]; simpl; [reflexivity | now rewrite IH]. Qed.

Lemma snoc_append (cap : string) (c : ascii) (a : string) :
  snoc cap c ++ a = cap ++ String c a.
Proof. unfold snoc. now rewrite append_assoc. Qed.

Lemma strip_prefix_sound (p : string) : forall s r, strip_prefix p s = Some r -> s = p ++ r.
Proof.
  induction p as [|a p IH]; intros s r Hs; simpl in *.
  - now inversion Hs.
  - destruct s as [|b s]; [discriminate|].
    destruct (Ascii.eqb_spec a b) as [->|]; [|discriminate].
    now rewrite (IH _ _ Hs).
Qed.

Lemma strip_prefix_append (p r : string) : strip_prefix p (p ++ r) = Some r.
Proof.
  induction p as [|a p IH]; simpl; [reflexivity|].
  now rewrite Ascii.eqb_refl.
Qed.

Lemma span_append (s : string) :
  s = fst (span_not_slash s) ++ snd (span_not_slash s).
Proof.
  induction s as [|c s IH]; simpl; [reflexivity|].
  destruct (is_slash c); [reflexivity|].
  destruct (span_not_slash s) as [a b]; simpl in *. now rewrite IH at 1.
Qed.

Lemma span_no_slash (s : string) : no_slash (fst (span_not_slash s)).
Proof.
  induction s as [|c s IH]; simpl; [exact I|].
  destruct (is_slash c) eqn:Hc; [exact I|].
  destruct (span_not_slash s) as [a b]; simpl in *. now split.
Qed.

(** A slash-free text followed by a slash is exactly what the group takes. *)
Lemma span_until_slash (o rest : string) :
  no_slash o -> span_not_slash (o ++ String "/" rest) = (o, String "/" rest).
Proof.
  induction o as [|c o IH]; simpl; intros Ho; [reflexivity|].
  destruct Ho as [Hc Ho]. rewrite Hc. now rewrite (IH Ho).
Qed.

Lemma span_nonempty (c : ascii) (o rest : string) :
  is_slash c = false -> fst (span_not_slash (String c o ++ rest)) <> "".
Proof.
  intros Hc. simpl. rewrite Hc.
  destruct (span_not_slash (o ++ rest)); simpl; discriminate.
Qed.

Section Star.
Context {R : Type} (k : string -> string -> option R).

(** When the rest of the pattern cannot start on a character other than a
    slash, coming back to a shorter capture never helps. *)
Lemma star_longest :
  (forall cap c r, is_slash c = false -> k cap (String c r) = None) ->
  forall s cap,
    star k cap s = k (cap ++ fst (span_not_slash s)) (snd (span_not_slash s)).
Proof.
  intros Hk. induction s as [|c s IH]; intros cap; simpl.
  - now rewrite append_empty_r.
  - destruct (is_slash c) eqn:Hc; simpl.
    + now rewrite append_empty_r.
    + rewrite IH. destruct (span_not_slash s) as [a b]; simpl.
      rewrite snoc_append.
      destruct (k (cap ++ String c a) b); [reflexivity|].
      now apply Hk.
Qed.

(** When the rest of the pattern accepts the longest capture, that is the
    match. *)
Lemma star_first :
  forall s cap m,
    k (cap ++ fst (span_not_slash s)) (snd (span_not_slash s)) = Some m ->
    star k cap s = Some m.
Proof.
  induction s as [|c s IH]; intros cap m; simpl.
  - now rewrite append_empty_r.
  - destruct (is_slash c) eqn:Hc; simpl.
    + now rewrite append_empty_r.
    + destruct (span_not_slash s) as [a b]; simpl in *. intros Hm.
      rewrite (IH (snoc cap c) m); [reflexivity|].
      now rewrite snoc_append.
Qed.
End Star.

Lemma plus_longest {R} (k : string -> string -> option R) (s : string) :
  (forall cap c r, is_slash c = false -> k cap (String c r) = None) ->
  plus k s =
  match fst (span_not_slash s) with
  | String _ _ as cap => k cap (snd (span_not_slash s))
  | EmptyString => None
  end.
Proof.
  intros Hk. destruct s as [|c s]; simpl; [reflexivity|].
  destruct (is_slash c) eqn:Hc; simpl; [reflexivity|].
  rewrite (star_longest k Hk). now destruct (span_not_slash s).
Qed.

Lemma plus_last {R} (f : string -> R) (s : string) :
  plus (fun cap _ => Some (f cap)) s =
  match fst (span_not_slash s) with
  | String _ _ as cap => Some (f cap)
  | EmptyString => None
  end.
Proof.
  destruct s as [|c s]; simpl; [reflexivity|].
  destruct (is_slash c) eqn:Hc; simpl; [reflexivity|].
  rewrite (star_first _ s (String c "") (f (String c (fst (span_not_slash s))))).
  - now destruct (span_not_slash s).
  - reflexivity.
Qed.

(** The backtracking matcher and its closed form agree on every input. *)
Lemma exec_urlPattern (s : string) : exec urlPattern [] s = match_at s.
Proof.
  unfold match_at, urlPattern.
  cbn [exec]. destruct (strip_prefix "github.com/" s) as [r0|]; [|reflexivity].
  rewrite plus_longest.
  - destruct (span_not_slash r0) as [owner r1]; cbn [fst snd].
    destruct owner as [|c o]; [reflexivity|].
    destruct (strip_prefix "/" r1) as [r2|]; [|reflexivity].
    rewrite (plus_last (fun cap => (([] ++ [String c o]) ++ [cap])%list)).
    now destruct (fst (span_not_slash r2)).
  - intros cap c r Hc. cbn [strip_prefix].
    unfold is_slash in Hc. rewrite Ascii.eqb_sym, Hc. reflexivity.
Qed.

Lemma search_unfold (p : list Item) (s : string) :
  search p s =
  match exec p [] s with
  | Some caps => Some caps
  | None => match s with
            | EmptyString => None
            | String _ r => search p r
            end
  end.
Proof. destruct s; reflexivity. Qed.

Lemma match_at_sound (s : string) (caps : list string) :
  match_at s = Some caps ->
  exists owner repo post,
    s = "github.com/" ++ owner ++ "/" ++ repo ++ post
    /\ caps = [owner; repo]
    /\ owner <> "" /\ repo <> "" /\ no_slash owner /\ no_slash repo.
Proof.
  unfold match_at.
  destruct (strip_prefix "github.com/" s) as [r0|] eqn:H0; [|discriminate].
  pose proof (span_append r0) as Hr0. pose proof (span_no_slash r0) as Ho.
  destruct (span_not_slash r0) as [owner r1]; cbn [fst snd] in *.
  destruct owner as [|c o]; [discriminate|].
  destruct (strip_prefix "/" r1) as [r2|] eqn:H1; [|discriminate].
  pose proof (span_append r2) as Hr2. pose proof (span_no_slash r2) as Hr.
  destruct (span_not_slash r2) as [repo post]; cbn [fst snd] in *.
  destruct repo as [|d rp]; [discriminate|].
  intros Hc; inversion Hc; subst caps; clear Hc.
  exists (String c o), (String d rp), post.
  apply strip_prefix_sound in H0, H1. subst s r1 r2.
  repeat split; try discriminate; try (simpl in Ho, Hr; tauto).
  now subst r0.
Qed.

Lemma match_at_complete (owner repo post : string) :
  owner <> "" -> repo <> "" -> no_slash owner -> no_slash repo ->
  match_at ("github.com/" ++ owner ++ "/" ++ repo ++ post) <> None.
Proof.
  intros Ho Hr Hno Hnr. unfold match_at.
  rewrite strip_prefix_append.
  change ("/" ++ repo ++ post) with (String "/" (repo ++ post)).
  rewrite (span_until_slash owner (repo ++ post) Hno).
  destruct owner as [|c o]; [congruence|].
  cbn [strip_prefix]. rewrite Ascii.eqb_refl.
  destruct repo as [|d rp]; [congruence|].
  destruct Hnr as [Hd _].
  pose proof (span_nonempty d rp post Hd) as Hne.
  destruct (fst (span_not_slash (String d rp ++ post))); [congruence|discriminate].
Qed.

Lemma search_occurs (s : string) (caps : list string) :
  search urlPattern s = Some caps -> occurs s.
Proof.
  induction s as [|c s IH]; rewrite search_unfold, exec_urlPattern.
  - destruct (match_at "") eqn:Hm; [|discriminate].
    intros _. apply match_at_sound in Hm.
    destruct Hm as (o & r & post & Hs & _). discriminate.
  - destruct (match_at (String c s)) as [m|] eqn:Hm.
    + intros _. apply match_at_sound in Hm.
      destruct Hm as (o & r & post & Hs & _ & Hrest).
      exists "", o, r, post. split; [exact Hs | exact Hrest].
    + intros Hs. destruct (IH Hs) as (pre & o & r & post & Heq & Hrest).
      exists (String c pre), o, r, post. split; [|exact Hrest].
      simpl. now rewrite Heq.
Qed.

Lemma occurs_search (s : string) : occurs s -> search urlPattern s <> None.
Proof.
  intros (pre & o & r & post & Heq & Ho & Hr & Hno & Hnr). subst s.
  induction pre as [|c pre IH].
  - rewrite search_unfold, exec_urlPattern.
    change ("" ++ "github.com/" ++ o ++ "/" ++ r ++ post)
      with ("github.com/" ++ o ++ "/" ++ r ++ post).
    pose proof (match_at_complete o r post Ho Hr Hno Hnr) as Hm.
    destruct (match_at ("github.com/" ++ o ++ "/" ++ r ++ post)); [discriminate|congruence].
  - rewrite search_unfold.
    destruct (exec urlPattern [] (String c pre ++ "github.com/" ++ o ++ "/" ++ r ++ post));
      [discriminate|].
    exact IH.
Qed.

(** [match] is [null] exactly on the strings in which the pattern does not
    occur. *)
Lemma search_none_iff (s : string) : search urlPattern s = None <-> ~ occurs s.
Proof.
  split.
  - intros Hn Ho. exact (occurs_search s Ho Hn).
  - intros Hn. destruct (search urlPattern s) as [caps|] eqn:Hs; [|reflexivity].
    exfalso. exact (Hn (search_occurs s caps Hs)).
Qed.

End RegexFacts.

(** ** Credential lookup *)

Lemma has_token_usable (q : QueryResult) :
  has_token (data q) = true <-> exists t, usable_token q t.
Proof.
  unfold has_token, usable_token, nonnull_token. split.
  - destruct (data q) as [u|]; [|discriminate].
    destruct (github_access_token u) as [[|c t]|] eqn:Ht; try discriminate.
    intros _. exists (String c t). split; [now exists u | discriminate].
  - intros (t & (u & -> & ->) & Hne). destruct t; congruence.
Qed.

Lemma no_usable_token (q : QueryResult) :
  (forall t, ~ usable_token q t) -> has_token (data q) = false.
Proof.
  intros Hn. destruct (has_token (data q)) eqn:Hh; [|reflexivity].
  apply has_token_usable in Hh. destruct Hh as (t & Hu). now destruct (Hn t).
Qed.

Lemma no_nonnull_token (q : QueryResult) :
  (forall t, ~ nonnull_token q t) -> has_token (data q) = false.
Proof.
  intros Hn. apply no_usable_token. intros t (Hnn & _). exact (Hn t Hnn).
Qed.

Lemma usable_token_header (q : QueryResult) (t : string) :
  usable_token q t ->
  has_token (data q) = true /\ authorization_header (data q) = Normal ("token " ++ t).
Proof.
  intros Hu. split.
  - apply has_token_usable. now exists t.
  - destruct Hu as ((u & Hd & Ht) & _). unfold authorization_header.
    now rewrite Hd, Ht.
Qed.

Ltac js_unfold :=
  unfold run, response_of, final_db, calls, getRepositories, getRepositoryBranches,
    validateRepository, findUserToken, tokenNotFound, fetchRepositories,
    responseJson, selectLimit, bind, try_catch, ret, throw, lift, emit,
    selectSingle, updateTokenNull, axiosCall, fetchCall;
  cbn [db trace fst snd].

Ltac js_simpl := cbn [db trace fst snd negb app orb andb is_some].

Ltac js_guard :=
  match goal with
  | |- context [has_token ?x] => destruct (has_token x) eqn:?
  | |- context [authorization_header ?x] => destruct (authorization_header x) eqn:?
  | |- context [is_some (error ?q)] => destruct (error q)
  | |- context [is_some (data ?q)] => destruct (data q)
  | |- context [owner_repo ?c] => destruct (owner_repo c)
  end.

(** One case split on what a collaborator or a JavaScript operation
    returned. *)
Ltac js_step :=
  js_simpl;
  first [ js_guard |
  match goal with
  | |- context [axios ?g ?r] => destruct (axios g r) eqn:?
  | |- context [fetch ?g ?r] => destruct (fetch g r) eqn:?
  | |- context [array_map ?f ?v] => destruct (array_map f v) eqn:?
  | |- context [project ?k ?v] => destruct (project k v) eqn:?
  | |- context [get_prop ?v ?k] => destruct (get_prop v k) eqn:?
  | |- context [string_match ?v ?p] => destruct (string_match v p) eqn:?
  | |- context [is_401 ?e] => destruct (is_401 e) eqn:?
  | |- context [ok ?s] => destruct (ok s) eqn:?
  | |- context [match ?x with Some _ => _ | None => _ end] => is_var x; destruct x
  | |- context [let (_, _) := ?x in _] => is_var x; destruct x
  end ];
  js_simpl.

Section HandlerFacts.
Context {DB : Type} `{Supabase DB}.
Variable gh : Upstream.

(** C3. When neither the lookup by firebase_uid nor the lookup by id yields a
    row with a non-null token, getRepositories and getRepositoryBranches
    answer 401 "GitHub authentication required" and make no call to the
    GitHub API. *)
Theorem listers_without_token
  (userId owner repo : string) (d : DB)
  (Hfb : forall t, ~ nonnull_token (select_single d "*" col_firebase_uid userId) t)
  (Hid : forall t, ~ nonnull_token (select_single d "*" col_id userId) t) :
  let repos := run (getRepositories gh userId) d in
  let branches := run (getRepositoryBranches gh userId owner repo) d in
  is_error_response (response_of repos) 401 GitHubAuthRequired
  /\ count is_github_call (calls repos) = 0%nat
  /\ is_error_response (response_of branches) 401 GitHubAuthRequired
  /\ count is_github_call (calls branches) = 0%nat.
Proof.
  apply no_nonnull_token in Hfb, Hid.
  js_unfold. rewrite Hfb. cbn [db trace fst snd]. rewrite Hid. cbn.
  repeat split; try (exists no_token_response; repeat split).
Qed.

Ltac sent_token Ha :=
  let t := fresh "t" in
  let Hu := fresh "Hu" in
  intros t Hu; apply usable_token_header in Hu; destruct Hu as [_ Hu];
  rewrite Ha in Hu; inversion Hu; subst;
  eexists; eexists; split; reflexivity.

(** The two listers share the lookup, and the proof: one case per lookup
    result, then one per answer of GitHub. *)
Ltac prove_precedence d userId :=
  let t := fresh "t" in
  let Hu := fresh "Hu" in
  let Hh := fresh "Hh" in
  let Ha := fresh "Ha" in
  let Hn := fresh "Hn" in
  split;
  [ intros t Hu; apply usable_token_header in Hu; destruct Hu as [Hh Ha];
    js_unfold; rewrite Hh; js_simpl; rewrite Ha;
    repeat js_step; (split; [reflexivity|]);
    eexists; eexists; split; reflexivity
  | intros Hn; apply no_usable_token in Hn;
    js_unfold; rewrite Hn; js_simpl;
    destruct (has_token (data (select_single d "*" col_id userId))) eqn:Hh;
    js_simpl;
    [ destruct (authorization_header (data (select_single d "*" col_id userId)))
        eqn:Ha;
      [ repeat js_step; eexists; (split; [reflexivity|]); sent_token Ha
      | exfalso; apply has_token_usable in Hh; destruct Hh as (t & Hu);
        apply usable_token_header in Hu; destruct Hu as [_ Hu]; congruence ]
    | eexists; split; [reflexivity|];
      intros t Hu; apply usable_token_header in Hu; destruct Hu as [Hu _];
      congruence ] ].

Lemma getRepositories_precedence (userId : string) (d : DB) :
  follows_precedence
    (select_single d "*" col_firebase_uid userId)
    (select_single d "*" col_id userId) userId
    (calls (run (getRepositories gh userId) d)).
Proof. prove_precedence d userId. Qed.

Lemma getRepositoryBranches_precedence (userId owner repo : string) (d : DB) :
  follows_precedence
    (select_single d "*" col_firebase_uid userId)
    (select_single d "*" col_id userId) userId
    (calls (run (getRepositoryBranches gh userId owner repo) d)).
Proof. prove_precedence d userId. Qed.

(** C2 (amended). In getRepositories and getRepositoryBranches the user table
    is first queried by firebase_uid; when that row exists and its token is
    neither null nor empty, that token is sent to GitHub and the table is
    never queried by id; otherwise the table is queried by id and that row's
    token is sent when it is neither null nor empty. *)
Theorem credential_precedence (userId owner repo : string) (d : DB) :
  follows_precedence
    (select_single d "*" col_firebase_uid userId)
    (select_single d "*" col_id userId) userId
    (calls (run (getRepositories gh userId) d))
  /\ follows_precedence
       (select_single d "*" col_firebase_uid userId)
       (select_single d "*" col_id userId) userId
       (calls (run (getRepositoryBranches gh userId owner repo) d)).
Proof.
  split.
  - apply getRepositories_precedence.
  - apply getRepositoryBranches_precedence.
Qed.

(** ** validateRepository *)

(** C4. The pattern is searched anywhere in the string:
    "https://github.com/acme/widgets" parses to ("acme", "widgets"); when
    the pattern occurs nowhere in repositoryUrl, validateRepository answers
    400 "Invalid GitHub repository URL" without a call to GitHub and without
    a database lookup; and a string in which the pattern occurs somewhere is
    never answered 400. *)
Theorem url_without_pattern_rejected
  (userId : string) (reqBody : JsVal) (s elsewhere : string) (d : DB)
  (Hurl : get_prop reqBody "repositoryUrl" = Normal (JStr s))
  (Hno : ~ Regex.occurs s) :
  let r := run (validateRepository gh userId reqBody) d in
  option_map owner_repo
    (Regex.search Regex.urlPattern "https://github.com/acme/widgets")
  = Some ("acme", "widgets")
  /\ response_of r = Some (mkResponse 400 (json_error InvalidRepositoryUrl))
  /\ count is_github_call (calls r) = 0%nat
  /\ count is_db_lookup (calls r) = 0%nat
  /\ (Regex.occurs elsewhere ->
      response_of
        (run (validateRepository gh userId (JObj [("repositoryUrl", JStr elsewhere)])) d)
      <> Some (mkResponse 400 (json_error InvalidRepositoryUrl))).
Proof.
  apply RegexFacts.search_none_iff in Hno.
  split; [reflexivity|].
  split; [|split; [|split]].
  - js_unfold. rewrite Hurl. cbn [string_match]. now rewrite Hno.
  - js_unfold. rewrite Hurl. cbn [string_match]. now rewrite Hno.
  - js_unfold. rewrite Hurl. cbn [string_match]. now rewrite Hno.
  - intros Hocc. apply RegexFacts.occurs_search in Hocc.
    js_unfold. change (get_prop (JObj [("repositoryUrl", JStr elsewhere)]) "repositoryUrl")
      with (Normal (JStr elsewhere)). cbn [string_match].
    destruct (Regex.search Regex.urlPattern elsewhere) as [caps|]; [|congruence].
    repeat js_step; discriminate.
Qed.

(** C10. When req.body has no repositoryUrl, or one that is not a string,
    validateRepository answers 500 "Failed to validate repository": the
    call of match throws before the 400 branch, and nothing has been called
    yet. *)
Theorem url_not_a_string_500
  (userId : string) (reqBody : JsVal) (d : DB)
  (Hurl : forall s, get_prop reqBody "repositoryUrl" <> Normal (JStr s)) :
  let r := run (validateRepository gh userId reqBody) d in
  response_of r = Some (mkResponse 500 (json_error "Failed to validate repository"))
  /\ response_of r <> Some (mkResponse 400 (json_error InvalidRepositoryUrl))
  /\ calls r = [].
Proof.
  js_unfold.
  destruct (get_prop reqBody "repositoryUrl") as [v|e] eqn:Hv.
  - destruct v; try (now destruct (Hurl s)); cbn; repeat split; discriminate.
  - cbn; repeat split; discriminate.
Qed.

(** C7. validateRepository queries the user table by firebase_uid only, never
    by id; and when that lookup reports an error, finds no row, or finds a
    row whose token is null, it answers 401 "GitHub authentication required"
    and makes no call to GitHub. *)
Theorem validator_single_key
  (userId : string) (reqBody anyBody : JsVal) (s : string) (d : DB)
  (Hurl : get_prop reqBody "repositoryUrl" = Normal (JStr s))
  (Hocc : Regex.occurs s)
  (Hfail :
     let q := select_single d "github_access_token" col_firebase_uid userId in
     error q <> None \/ data q = None
     \/ exists u, data q = Some u /\ github_access_token u = None) :
  let r := run (validateRepository gh userId reqBody) d in
  is_error_response (response_of r) 401 GitHubAuthRequired
  /\ calls r = [DbSelectSingle "github_access_token" col_firebase_uid userId]
  /\ count is_github_call (calls r) = 0%nat
  /\ count (is_select_by col_id)
       (calls (run (validateRepository gh userId anyBody) d)) = 0%nat.
Proof.
  cbv zeta in Hfail. apply RegexFacts.occurs_search in Hocc.
  assert (Hany : count (is_select_by col_id)
                   (calls (run (validateRepository gh userId anyBody) d)) = 0%nat).
  { js_unfold. repeat js_step; reflexivity. }
  js_unfold. rewrite Hurl. cbn [string_match].
  destruct (Regex.search Regex.urlPattern s) as [caps|]; [|congruence].
  destruct (owner_repo caps) as [owner repo]. js_simpl.
  assert (Hguard :
    is_some (error (select_single d "github_access_token" col_firebase_uid userId))
    || negb (is_some (data (select_single d "github_access_token" col_firebase_uid userId)))
    || negb (has_token (data (select_single d "github_access_token" col_firebase_uid userId)))
    = true).
  { destruct (select_single d "github_access_token" col_firebase_uid userId)
      as [dq eq]; cbn [data error] in *.
    destruct Hfail as [He | [Hd | (u & Hd & Ht)]].
    - destruct eq; [reflexivity | congruence].
    - subst dq. destruct eq; reflexivity.
    - subst dq. cbn. rewrite Ht. destruct eq; reflexivity. }
  rewrite Hguard. js_simpl.
  split; [|split; [reflexivity|split; [reflexivity|exact Hany]]].
  exists (mkResponse 401 (json_error GitHubAuthRequired)). repeat split.
Qed.

(** C8. Whatever non-success status GitHub answers to the get-repository
    call (404, 403 or any other), validateRepository answers 403
    "Repository not found or no access". *)
Theorem validator_collapses_failures
  (userId : string) (reqBody : JsVal) (s : string) (caps : list string)
  (u : UserRow) (t : string) (st : Z) (payload : option JsVal) (d : DB)
  (Hurl : get_prop reqBody "repositoryUrl" = Normal (JStr s))
  (Hm : Regex.search Regex.urlPattern s = Some caps)
  (Hq : select_single d "github_access_token" col_firebase_uid userId
        = mkQuery (Some u) None)
  (Ht : github_access_token u = Some t)
  (Hne : t <> "")
  (Hgh : fetch gh (repoRequest (fst (owner_repo caps)) (snd (owner_repo caps))
                     ("token " ++ t))
         = FetchResolved st payload)
  (Hok : ok st = false) :
  let r := run (validateRepository gh userId reqBody) d in
  response_of r = Some (mkResponse 403 (json_error RepositoryNotAccessible))
  /\ is_error_response (response_of r) 403 RepositoryNotAccessible.
Proof.
  assert (Hh : has_token (Some u) = true).
  { cbn. rewrite Ht. destruct t; congruence. }
  js_unfold. rewrite Hurl. cbn [string_match]. rewrite Hm.
  destruct (owner_repo caps) as [owner repo]. cbn [fst snd] in Hgh.
  js_simpl. rewrite Hq. cbn [data error]. rewrite Hh. js_simpl.
  cbn [authorization_header]. rewrite Ht, Hgh, Hok. js_simpl.
  split; [reflexivity|].
  exists (mkResponse 403 (json_error RepositoryNotAccessible)). repeat split.
Qed.

Lemma project_object (keys : list string) (fields : list (string * JsVal)) :
  project keys (JObj fields) = Normal (map (fun k => (k, own_property k fields)) keys).
Proof.
  induction keys as [|k ks IH]; cbn [project map get_prop]; [reflexivity|].
  now rewrite IH.
Qed.

(** C5. On a successful get-repository response whose body is an object,
    the body of validateRepository's 200 response is exactly
    {valid: true, repository: {id, name, full_name, default_branch,
    visibility}}, each value taken from the upstream object and every other
    field of it dropped: five fields. *)
Theorem validator_success_body
  (userId : string) (reqBody : JsVal) (s : string) (caps : list string)
  (u : UserRow) (t : string) (st : Z) (fields : list (string * JsVal)) (d : DB)
  (Hurl : get_prop reqBody "repositoryUrl" = Normal (JStr s))
  (Hm : Regex.search Regex.urlPattern s = Some caps)
  (Hq : select_single d "github_access_token" col_firebase_uid userId
        = mkQuery (Some u) None)
  (Ht : github_access_token u = Some t)
  (Hne : t <> "")
  (Hgh : fetch gh (repoRequest (fst (owner_repo caps)) (snd (owner_repo caps))
                     ("token " ++ t))
         = FetchResolved st (Some (JObj fields)))
  (Hok : ok st = true) :
  response_of (run (validateRepository gh userId reqBody) d)
  = Some (mkResponse 200
            (JObj [("valid", JBool true);
                   ("repository",
                    JObj [("id", own_property "id" fields);
                          ("name", own_property "name" fields);
                          ("full_name", own_property "full_name" fields);
                          ("default_branch", own_property "default_branch" fields);
                          ("visibility", own_property "visibility" fields)])]))
  /\ List.length validated_repo_keys = 5%nat.
Proof.
  assert (Hh : has_token (Some u) = true).
  { cbn. rewrite Ht. destruct t; congruence. }
  js_unfold. rewrite Hurl. cbn [string_match]. rewrite Hm.
  destruct (owner_repo caps) as [owner repo]. cbn [fst snd] in Hgh.
  js_simpl. rewrite Hq. cbn [data error]. rewrite Hh. js_simpl.
  cbn [authorization_header]. rewrite Ht, Hgh, Hok. js_simpl.
  rewrite project_object. split; reflexivity.
Qed.

(** ** getRepositories: the mapping *)

Lemma formatRepo_object (fields : list (string * JsVal)) :
  formatRepo (JObj fields) = Normal (summary_of repo_summary_keys fields).
Proof. unfold formatRepo. now rewrite project_object. Qed.

Lemma map_items_objects (items : list (list (string * JsVal))) :
  map_items formatRepo (map JObj items)
  = Normal (map (summary_of repo_summary_keys) items).
Proof.
  induction items as [|fields items IH]; [reflexivity|].
  cbn [map map_items]. now rewrite formatRepo_object, IH.
Qed.

Lemma assoc_projection (f : string -> JsVal) (keys : list string) (k : string) :
  In k keys -> assoc k (map (fun k' => (k', f k')) keys) = Some (f k).
Proof.
  induction keys as [|k' ks IH]; [intros []|].
  intros Hin. cbn [map assoc].
  destruct (String.eqb_spec k k') as [->|Hne]; [reflexivity|].
  destruct Hin as [->|Hin]; [congruence | exact (IH Hin)].
Qed.

Lemma resolved_token_found (userId t : string) (d : DB) :
  resolved_token d userId t ->
  exists user,
    findUserToken userId (mkWorld d []) 
    = (Normal (user, true),
       mkWorld d (filter is_db_lookup (trace (snd (findUserToken userId (mkWorld d []))))))
    /\ authorization_header user = Normal ("token " ++ t).
Proof.
  intros [Hu | [Hn Hu]].
  - apply usable_token_header in Hu. destruct Hu as [Hh Ha].
    exists (data (select_single d "*" col_firebase_uid userId)).
    js_unfold. rewrite Hh. js_simpl. now split.
  - apply no_usable_token in Hn. apply usable_token_header in Hu.
    destruct Hu as [Hh Ha].
    exists (data (select_single d "*" col_id userId)).
    js_unfold. rewrite Hn. js_simpl. rewrite Hh. js_simpl. now split.
Qed.

(** C6 (amended). For every array of N repository objects that GitHub
    returns, getRepositories answers 200 with an array of exactly N
    summaries in the same order, each the eight-field projection
    {id, name, full_name, html_url, description, default_branch, visibility,
    updated_at} of its object, a field the object lacks being passed on as
    it is read (undefined). *)
Theorem repositories_mapped_in_order
  (userId t : string) (items : list (list (string * JsVal))) (d : DB)
  (Hres : resolved_token d userId t)
  (Hgh : axios gh (listReposRequest ("token " ++ t))
         = AxiosResolved (JArr (map JObj items))) :
  let summaries := map (summary_of repo_summary_keys) items in
  response_of (run (getRepositories gh userId) d)
  = Some (mkResponse 200 (JObj [("repositories", JArr summaries)]))
  /\ List.length summaries = List.length items
  /\ (forall i fields,
        nth_error items i = Some fields ->
        nth_error summaries i = Some (summary_of repo_summary_keys fields))
  /\ List.length repo_summary_keys = 8%nat
  /\ (forall fields k,
        In k repo_summary_keys ->
        get_prop (summary_of repo_summary_keys fields) k = get_prop (JObj fields) k).
Proof.
  intros summaries. split; [|split; [|split; [|split]]].
  - destruct (resolved_token_found userId t d Hres) as (user & Hfind & Ha).
    unfold run, response_of, getRepositories, fetchRepositories.
    unfold bind at 1. unfold try_catch at 1. unfold bind at 1.
    rewrite Hfind. js_simpl.
    unfold bind, try_catch, lift, ret, axiosCall. js_simpl.
    rewrite Ha, Hgh. js_simpl. cbn [get_prop array_map].
    now rewrite map_items_objects.
  - apply length_map.
  - intros i fields Hi. unfold summaries. now rewrite nth_error_map, Hi.
  - reflexivity.
  - intros fields k Hin. unfold summary_of. cbn [get_prop]. unfold own_property at 1.
    now rewrite assoc_projection.
Qed.

(** ** What the handlers write *)

Lemma is_401_status (e : JsError) : is_401 e = true -> response_status e = Some 401.
Proof.
  unfold is_401. destruct (response_status e) as [s|]; [|discriminate].
  intros Hs. apply Z.eqb_eq in Hs. now subst.
Qed.

(** The TypeErrors raised inside the inner [try] carry no response. *)
Lemma header_error_not_401 (user : option UserRow) (e : JsError) :
  authorization_header user = Thrown e -> is_401 e = false.
Proof. destruct user; intros He; inversion He; reflexivity. Qed.

Lemma get_prop_error_not_401 (v : JsVal) (k : string) (e : JsError) :
  get_prop v k = Thrown e -> is_401 e = false.
Proof. destruct v; intros He; inversion He; reflexivity. Qed.

Lemma getRepositoryBranches_frame (userId owner repo : string) (d : DB) :
  let r := run (getRepositoryBranches gh userId owner repo) d in
  final_db r = d /\ count is_db_write (calls r) = 0%nat
  /\ In (DbSelectSingle "*" col_firebase_uid userId) (calls r).
Proof.
  js_unfold. repeat js_step; repeat split; now left.
Qed.

Lemma validateRepository_frame (userId : string) (reqBody : JsVal) (d : DB) :
  let r := run (validateRepository gh userId reqBody) d in
  final_db r = d /\ count is_db_write (calls r) = 0%nat.
Proof.
  js_unfold. repeat js_step; split; reflexivity.
Qed.

Lemma validateRepository_reads (userId : string) (reqBody : JsVal) (s : string) (d : DB) :
  get_prop reqBody "repositoryUrl" = Normal (JStr s) ->
  Regex.occurs s ->
  In (DbSelectSingle "github_access_token" col_firebase_uid userId)
     (calls (run (validateRepository gh userId reqBody) d)).
Proof.
  intros Hurl Hocc. apply RegexFacts.occurs_search in Hocc.
  js_unfold. rewrite Hurl. cbn [string_match].
  destruct (Regex.search Regex.urlPattern s) as [caps|]; [|congruence].
  repeat js_step; now left.
Qed.

Lemma getRepositories_frame (userId : string) (d : DB) :
  let r := run (getRepositories gh userId) d in
  In (DbSelectSingle "*" col_firebase_uid userId) (calls r)
  /\ ((final_db r = d /\ count is_db_write (calls r) = 0%nat)
      \/ (exists req e,
            In (GitHubCall req) (calls r)
            /\ axios gh req = AxiosRejected e
            /\ response_status e = Some 401
            /\ response_of r = Some token_rejected_response
            /\ final_db r = update_token_null d col_firebase_uid userId
            /\ count is_db_write (calls r) = 1%nat)).
Proof.
  js_unfold. repeat js_step;
    (split; [now left|]);
    try (left; split; reflexivity);
    try match goal with
        | Ht : authorization_header _ = Thrown ?e, H4 : is_401 ?e = true |- _ =>
            rewrite (header_error_not_401 _ _ Ht) in H4; discriminate
        | Ht : get_prop _ _ = Thrown ?e, H4 : is_401 ?e = true |- _ =>
            rewrite (get_prop_error_not_401 _ _ _ Ht) in H4; discriminate
        end;
    right;
    match goal with
    | Ha : axios gh ?req = AxiosRejected ?e, H4 : is_401 ?e = true |- _ =>
        exists req, e; repeat split;
        [cbn; tauto | exact Ha | exact (is_401_status e H4)]
    end.
Qed.

(** C9. The three handlers read the token from the user table; only
    getRepositories writes it, and only to null it after GitHub answered 401
    to the list call.  getRepositoryBranches and validateRepository leave the
    table as it was on every path, whatever GitHub answers. *)
Theorem token_written_only_on_invalidation
  (userId owner repo : string) (reqBody : JsVal) (d : DB) :
  let repos := run (getRepositories gh userId) d in
  let branches := run (getRepositoryBranches gh userId owner repo) d in
  let validation := run (validateRepository gh userId reqBody) d in
  (final_db branches = d /\ count is_db_write (calls branches) = 0%nat)
  /\ (final_db validation = d /\ count is_db_write (calls validation) = 0%nat)
  /\ ((final_db repos = d /\ count is_db_write (calls repos) = 0%nat)
      \/ (exists req e,
            In (GitHubCall req) (calls repos)
            /\ axios gh req = AxiosRejected e
            /\ response_status e = Some 401
            /\ response_of repos = Some token_rejected_response
            /\ final_db repos = update_token_null d col_firebase_uid userId
            /\ count is_db_write (calls repos) = 1%nat))
  /\ In (DbSelectSingle "*" col_firebase_uid userId) (calls repos)
  /\ In (DbSelectSingle "*" col_firebase_uid userId) (calls branches)
  /\ (forall s,
        get_prop reqBody "repositoryUrl" = Normal (JStr s) ->
        Regex.occurs s ->
        In (DbSelectSingle "github_access_token" col_firebase_uid userId)
           (calls validation)).
Proof.
  intros repos branches validation.
  destruct (getRepositoryBranches_frame userId owner repo d) as (Hb1 & Hb2 & Hb3).
  destruct (validateRepository_frame userId reqBody d) as (Hv1 & Hv2).
  destruct (getRepositories_frame userId d) as (Hr1 & Hr2).
  repeat split; try assumption.
  intros s Hurl Hocc. exact (validateRepository_reads userId reqBody s d Hurl Hocc).
Qed.

End HandlerFacts.

(** ** Invalidation on the table *)

Lemma column_eqb_null_token (c : Column) (v : string) (u : UserRow) :
  column_eqb c v (null_token u) = column_eqb c v u.
Proof. destruct c; reflexivity. Qed.

Lemma filter_update_token_null (c : Column) (v : string) (t : Table) :
  filter (column_eqb c v) (table_update_token_null t c v)
  = map null_token (filter (column_eqb c v) t).
Proof.
  unfold table_update_token_null.
  induction t as [|u t IH]; [reflexivity|].
  cbn [map filter].
  destruct (column_eqb c v u) eqn:Hu.
  - rewrite column_eqb_null_token, Hu. cbn [map]. now rewrite IH.
  - now rewrite Hu.
Qed.

(** After the update keyed on a column, the lookup on that column finds no
    token. *)
Lemma update_token_null_clears (c : Column) (v cols : string) (t : Table) (tok : string) :
  ~ nonnull_token (select_single (update_token_null t c v) cols c v) tok.
Proof.
  intros (u & Hd & Ht).
  change (select_single (update_token_null t c v) cols c v)
    with (table_select_single (table_update_token_null t c v) cols c v) in Hd.
  unfold table_select_single in Hd. rewrite filter_update_token_null in Hd.
  destruct (filter (column_eqb c v) t) as [|u1 [|u2 rest]]; cbn in Hd; try discriminate.
  inversion Hd; subst u. discriminate.
Qed.

(** When the token was found under firebase_uid and GitHub answers 401,
    getRepositories answers 401 and the next lookup under firebase_uid finds
    no token. *)
Lemma invalidation_by_firebase_uid
  (gh : Upstream) (userId tok : string) (e : JsError) (t : Table) :
  usable_token (select_single t "*" col_firebase_uid userId) tok ->
  axios gh (listReposRequest ("token " ++ tok)) = AxiosRejected e ->
  response_status e = Some 401 ->
  let r := run (getRepositories gh userId) t in
  response_of r = Some token_rejected_response
  /\ final_db r = update_token_null t col_firebase_uid userId
  /\ forall tok', ~ nonnull_token (select_single (final_db r) "*" col_firebase_uid userId) tok'.
Proof.
  intros Hu Hgh He r.
  assert (Hr : response_of r = Some token_rejected_response
               /\ final_db r = update_token_null t col_firebase_uid userId).
  { apply usable_token_header in Hu. destruct Hu as [Hh Ha].
    subst r. js_unfold. rewrite Hh. js_simpl. rewrite Ha, Hgh. js_simpl.
    unfold is_401. rewrite He. cbn. split; reflexivity. }
  destruct Hr as [Hr1 Hr2]. repeat split; try assumption.
  intros tok'. rewrite Hr2. apply update_token_null_clears.
Qed.

(** C1, on the path the claim adds.  alice's token is found by the fallback
    on id; GitHub answers 401; the handler answers 401, but its update is
    keyed on firebase_uid = "42", matches no row, and the same token is
    resolved again by the next request. *)
Lemma invalidation_misses_id_fallback :
  let r := run (getRepositories upstream_401 "42") sample_users in
  (forall t, ~ usable_token (select_single sample_users "*" col_firebase_uid "42") t)
  /\ usable_token (select_single sample_users "*" col_id "42") "gho_alice"
  /\ response_of r = Some token_rejected_response
  /\ calls r = [DbSelectSingle "*" col_firebase_uid "42";
                DbSelectSingle "*" col_id "42";
                GitHubCall (listReposRequest "token gho_alice");
                DbUpdateTokenNull col_firebase_uid "42"]
  /\ final_db r = sample_users
  /\ fst (run (findUserToken "42") (final_db r)) = Normal (Some alice, true).
Proof.
  repeat split.
  - intros t ((u & Hd & _) & _). discriminate Hd.
  - now exists alice.
  - discriminate.
Qed.

(** ** Counterexamples to the claims as worded *)

(** C2 as worded: carol's row is found under firebase_uid with a non-null
    token, the empty string; the token is not used and the table is queried
    by id. *)
Lemma empty_token_falls_back :
  ~ (forall (d : Table) (userId t : string),
       nonnull_token (select_single d "*" col_firebase_uid userId) t ->
       count (is_select_by col_id)
         (calls (run (getRepositories upstream_ok userId) d)) = 0%nat).
Proof.
  intros Hc.
  assert (Hn : nonnull_token (select_single sample_users "*" col_firebase_uid "fb-carol") "")
    by now exists carol.
  specialize (Hc sample_users "fb-carol" "" Hn). discriminate Hc.
Qed.

(** C6 as worded: the projection has eight fields, not seven. *)
Lemma summary_is_not_seven_fields :
  ~ (forall fields summary,
       formatRepo (JObj fields) = Normal (JObj summary) ->
       List.length summary = 7%nat).
Proof.
  intros Hc. specialize (Hc [] _ eq_refl). discriminate Hc.
Qed.

(** ** The theorems at concrete inputs *)

Lemma listers_without_token_witness :
  let repos := run (getRepositories upstream_ok "fb-bob") sample_users in
  let branches :=
    run (getRepositoryBranches upstream_ok "fb-bob" "acme" "widgets") sample_users in
  is_error_response (response_of repos) 401 GitHubAuthRequired
  /\ count is_github_call (calls repos) = 0%nat
  /\ is_error_response (response_of branches) 401 GitHubAuthRequired
  /\ count is_github_call (calls branches) = 0%nat.
Proof.
  apply (listers_without_token upstream_ok "fb-bob" "acme" "widgets" sample_users).
  - intros t (u & Hd & Ht). inversion Hd; subst u. discriminate Ht.
  - intros t (u & Hd & Ht). discriminate Hd.
Defined.

Lemma credential_precedence_witness :
  count (is_select_by col_id)
    (calls (run (getRepositories upstream_ok "fb-alice") sample_users)) = 0%nat
  /\ exists rest,
       calls (run (getRepositoryBranches upstream_ok "42" "acme" "widgets") sample_users)
       = DbSelectSingle "*" col_firebase_uid "42" :: DbSelectSingle "*" col_id "42" :: rest.
Proof.
  destruct (credential_precedence upstream_ok "fb-alice" "acme" "widgets" sample_users)
    as [[Hfirst _] _].
  destruct (credential_precedence upstream_ok "42" "acme" "widgets" sample_users)
    as [_ [_ Hsecond]].
  split.
  - apply (Hfirst "gho_alice"). split; [now exists alice | discriminate].
  - destruct Hsecond as (rest & Hrest & _).
    + intros t ((u & Hd & _) & _). discriminate Hd.
    + now exists rest.
Defined.

Lemma url_without_pattern_rejected_witness :
  let r := run (validateRepository upstream_ok "fb-alice"
                  (JObj [("repositoryUrl", JStr "https://gitlab.com/acme/widgets")]))
             sample_users in
  option_map owner_repo
    (Regex.search Regex.urlPattern "https://github.com/acme/widgets")
  = Some ("acme", "widgets")
  /\ response_of r = Some (mkResponse 400 (json_error InvalidRepositoryUrl))
  /\ count is_github_call (calls r) = 0%nat
  /\ count is_db_lookup (calls r) = 0%nat
  /\ (Regex.occurs "see github.com/acme/widgets/tree/main" ->
      response_of
        (run (validateRepository upstream_ok "fb-alice"
                (JObj [("repositoryUrl", JStr "see github.com/acme/widgets/tree/main")]))
           sample_users)
      <> Some (mkResponse 400 (json_error InvalidRepositoryUrl))).
Proof.
  apply (url_without_pattern_rejected upstream_ok "fb-alice" _
           "https://gitlab.com/acme/widgets" "see github.com/acme/widgets/tree/main"
           sample_users).
  - reflexivity.
  - apply RegexFacts.search_none_iff. reflexivity.
Defined.

Lemma url_not_a_string_500_witness :
  let r := run (validateRepository upstream_ok "fb-alice"
                  (JObj [("repositoryUrl", JNum 7)])) sample_users in
  response_of r = Some (mkResponse 500 (json_error "Failed to validate repository"))
  /\ response_of r <> Some (mkResponse 400 (json_error InvalidRepositoryUrl))
  /\ calls r = [].
Proof.
  apply (url_not_a_string_500 upstream_ok "fb-alice"
           (JObj [("repositoryUrl", JNum 7)]) sample_users).
  intros s. discriminate.
Defined.

Lemma validator_single_key_witness :
  let r := run (validateRepository upstream_ok "fb-bob" acme_widgets_body) sample_users in
  is_error_response (response_of r) 401 GitHubAuthRequired
  /\ calls r = [DbSelectSingle "github_access_token" col_firebase_uid "fb-bob"]
  /\ count is_github_call (calls r) = 0%nat
  /\ count (is_select_by col_id)
       (calls (run (validateRepository upstream_ok "fb-bob" JNull) sample_users)) = 0%nat.
Proof.
  apply (validator_single_key upstream_ok "fb-bob" acme_widgets_body JNull
           "https://github.com/acme/widgets" sample_users).
  - reflexivity.
  - apply (RegexFacts.search_occurs _ ["acme"; "widgets"]). reflexivity.
  - right. right. exists bob. split; reflexivity.
Defined.

Lemma validator_collapses_failures_witness :
  let r := run (validateRepository upstream_404 "fb-alice" acme_widgets_body)
             sample_users in
  response_of r = Some (mkResponse 403 (json_error RepositoryNotAccessible))
  /\ is_error_response (response_of r) 403 RepositoryNotAccessible.
Proof.
  apply (validator_collapses_failures upstream_404 "fb-alice" acme_widgets_body
           "https://github.com/acme/widgets" ["acme"; "widgets"] alice "gho_alice"
           404 (Some (JObj [("message", JStr "Not Found")])) sample_users);
    try reflexivity.
  discriminate.
Defined.

Lemma validator_success_body_witness :
  response_of (run (validateRepository upstream_ok "fb-alice" acme_widgets_body)
                 sample_users)
  = Some (mkResponse 200
            (JObj [("valid", JBool true);
                   ("repository",
                    JObj [("id", JNum 1);
                          ("name", JStr "widgets");
                          ("full_name", JStr "acme/widgets");
                          ("default_branch", JStr "main");
                          ("visibility", JStr "public")])]))
  /\ List.length validated_repo_keys = 5%nat.
Proof.
  apply (validator_success_body upstream_ok "fb-alice" acme_widgets_body
           "https://github.com/acme/widgets" ["acme"; "widgets"] alice "gho_alice"
           200 widgets sample_users);
    try reflexivity.
  discriminate.
Defined.

Lemma repositories_mapped_in_order_witness :
  response_of (run (getRepositories upstream_ok "42") sample_users)
  = Some (mkResponse 200
            (JObj [("repositories",
                    JArr [summary_of repo_summary_keys widgets;
                          summary_of repo_summary_keys gadgets])])).
Proof.
  apply (repositories_mapped_in_order upstream_ok "42" "gho_alice" [widgets; gadgets]
           sample_users).
  - right. split.
    + intros t ((u & Hd & _) & _). discriminate Hd.
    + split; [now exists alice | discriminate].
  - reflexivity.
Defined.

Lemma token_written_only_on_invalidation_witness :
  final_db (run (getRepositoryBranches upstream_401 "fb-alice" "acme" "widgets")
              sample_users) = sample_users
  /\ In (DbSelectSingle "github_access_token" col_firebase_uid "fb-alice")
       (calls (run (validateRepository upstream_401 "fb-alice" acme_widgets_body)
                 sample_users)).
Proof.
  destruct (token_written_only_on_invalidation upstream_401 "fb-alice" "acme" "widgets"
              acme_widgets_body sample_users)
    as ((Hb & _) & _ & _ & _ & _ & Hread).
  split; [exact Hb|].
  apply (Hread "https://github.com/acme/widgets"); [reflexivity|].
  apply (RegexFacts.search_occurs _ ["acme"; "widgets"]). reflexivity.
Defined.

(** * Further properties *)

(** ** What the URL pattern captures *)

Module RegexMore.
Import Regex RegexFacts.

Lemma span_rest (s : string) :
  snd (span_not_slash s) = "" \/ exists p, snd (span_not_slash s) = "/" ++ p.
Proof.
  induction s as [|c s IH]; simpl; [now left|].
  destruct (is_slash c) eqn:Hc; simpl.
  - right. exists s. unfold is_slash in Hc. apply Ascii.eqb_eq in Hc. now subst c.
  - now destruct (span_not_slash s).
Qed.

Lemma span_no_slash_prefix (r post : string) :
  no_slash r ->
  span_not_slash (r ++ post)
  = (r ++ fst (span_not_slash post), snd (span_not_slash post)).
Proof.
  induction r as [|c r IH]; intros Hr.
  - simpl. now destruct (span_not_slash post).
  - destruct Hr as [Hc Hr]. simpl. rewrite Hc. now rewrite (IH Hr).
Qed.

Lemma span_whole (x : string) : no_slash x -> span_not_slash x = (x, "").
Proof.
  intros Hx. rewrite <- (append_empty_r x) at 1.
  rewrite (span_no_slash_prefix x "" Hx). simpl. now rewrite append_empty_r.
Qed.

Lemma no_slash_append (a b : string) : no_slash a -> no_slash b -> no_slash (a ++ b).
Proof.
  induction a as [|c a IH]; simpl; [tauto|].
  intros [Hc Ha] Hb. split; [exact Hc | now apply IH].
Qed.

(** The match at a given start, with the text after the second group. *)
Lemma match_at_captures (s : string) (caps : list string) :
  match_at s = Some caps ->
  exists owner repo post,
    s = "github.com/" ++ owner ++ "/" ++ repo ++ post
    /\ caps = [owner; repo]
    /\ owner <> "" /\ repo <> "" /\ no_slash owner /\ no_slash repo
    /\ (post = "" \/ exists p, post = "/" ++ p).
Proof.
  unfold match_at.
  destruct (strip_prefix "github.com/" s) as [r0|] eqn:H0; [|discriminate].
  pose proof (span_append r0) as Hr0. pose proof (span_no_slash r0) as Ho.
  destruct (span_not_slash r0) as [owner r1]; cbn [fst snd] in *.
  destruct owner as [|c o]; [discriminate|].
  destruct (strip_prefix "/" r1) as [r2|] eqn:H1; [|discriminate].
  pose proof (span_append r2) as Hr2. pose proof (span_no_slash r2) as Hr.
  pose proof (span_rest r2) as Hpost.
  destruct (span_not_slash r2) as [repo post]; cbn [fst snd] in *.
  destruct repo as [|d rp]; [discriminate|].
  intros Hc; inversion Hc; subst caps; clear Hc.
  exists (String c o), (String d rp), post.
  apply strip_prefix_sound in H0, H1. subst s r1 r2.
  repeat split; try discriminate; try (simpl in Ho, Hr; tauto).
  now subst r0.
Qed.

Lemma match_at_exact (owner repo post : string) :
  owner <> "" -> repo <> "" -> no_slash owner -> no_slash repo ->
  match_at ("github.com/" ++ owner ++ "/" ++ repo ++ post)
  = Some [owner; repo ++ fst (span_not_slash post)].
Proof.
  intros Ho Hr Hno Hnr. unfold match_at.
  rewrite strip_prefix_append.
  change ("/" ++ repo ++ post) with (String "/" (repo ++ post)).
  rewrite (span_until_slash owner (repo ++ post) Hno).
  destruct owner as [|c o]; [congruence|].
  cbn [strip_prefix]. rewrite Ascii.eqb_refl.
  rewrite (span_no_slash_prefix repo post Hnr). cbn [fst].
  destruct repo as [|d rp]; [congruence|]. reflexivity.
Qed.

Lemma match_at_none_iff (s : string) : match_at s = None <-> ~ pattern_at_start s.
Proof.
  split.
  - intros Hn (o & r & post & -> & Ho & Hr & Hno & Hnr).
    exact (match_at_complete o r post Ho Hr Hno Hnr Hn).
  - intros Hn. destruct (match_at s) as [caps|] eqn:Hm; [|reflexivity].
    exfalso. apply Hn. apply match_at_sound in Hm.
    destruct Hm as (o & r & post & Hs & _ & Hrest). now exists o, r, post.
Qed.

Lemma search_first_start (s : string) (caps : list string) :
  search urlPattern s = Some caps ->
  exists pre rest,
    s = pre ++ rest /\ match_at rest = Some caps
    /\ forall p1 p2, pre = p1 ++ p2 -> p2 <> "" -> ~ pattern_at_start (p2 ++ rest).
Proof.
  induction s as [|c s IH]; rewrite search_unfold, exec_urlPattern.
  - destruct (match_at "") eqn:Hm; [|discriminate].
    intros Hc; inversion Hc; subst. exists "", "". repeat split; [exact Hm|].
    intros p1 p2 Hp Hne. destruct p1, p2; simpl in Hp; congruence.
  - destruct (match_at (String c s)) as [m|] eqn:Hm.
    + intros Hc; inversion Hc; subst. exists "", (String c s).
      repeat split; [exact Hm|].
      intros p1 p2 Hp Hne. destruct p1, p2; simpl in Hp; congruence.
    + intros Hs. destruct (IH Hs) as (pre & rest & Heq & Hrest & Hleft).
      exists (String c pre), rest. repeat split.
      * simpl. now rewrite Heq.
      * exact Hrest.
      * intros p1 p2 Hp Hne. destruct p1 as [|c1 p1]; simpl in Hp.
        -- subst p2. simpl. rewrite <- Heq. now apply match_at_none_iff.
        -- injection Hp as _ Hp. exact (Hleft p1 p2 Hp Hne).
Qed.

(** X1. When the pattern matches, the match array holds exactly two
    captures after the whole match: owner and repo, both non-empty and free
    of slashes, in the text "github.com/<owner>/<repo>" of the input. *)
Theorem search_captures (s : string) (caps : list string)
  (Hm : search urlPattern s = Some caps) :
  exists pre owner repo post,
    s = pre ++ "github.com/" ++ owner ++ "/" ++ repo ++ post
    /\ caps = [owner; repo]
    /\ owner_repo caps = (owner, repo)
    /\ owner <> "" /\ repo <> "" /\ no_slash owner /\ no_slash repo.
Proof.
  destruct (search_first_start s caps Hm) as (pre & rest & Hs & Hrest & _).
  apply match_at_captures in Hrest.
  destruct Hrest as (o & r & post & Hr & Hc & Ho & Hne & Hno & Hnr & _).
  exists pre, o, r, post. subst. repeat split; assumption.
Qed.

(** X2. The match is the leftmost one and the repo capture is the longest:
    the pattern matches at no earlier start, and the text after the repo is
    empty or begins with a slash. *)
Theorem search_leftmost_longest (s : string) (owner repo : string)
  (Hm : search urlPattern s = Some [owner; repo]) :
  exists pre post,
    s = pre ++ "github.com/" ++ owner ++ "/" ++ repo ++ post
    /\ (post = "" \/ exists p, post = "/" ++ p)
    /\ forall p1 p2,
         pre = p1 ++ p2 -> p2 <> "" ->
         ~ pattern_at_start (p2 ++ "github.com/" ++ owner ++ "/" ++ repo ++ post).
Proof.
  destruct (search_first_start s _ Hm) as (pre & rest & Hs & Hrest & Hleft).
  apply match_at_captures in Hrest.
  destruct Hrest as (o & r & post & Hr & Hc & _ & _ & _ & _ & Hpost).
  inversion Hc; subst o r. exists pre, post. subst rest s.
  repeat split; assumption.
Qed.

Lemma search_skip (c : ascii) (s : string) :
  c <> "g"%char -> search urlPattern (String c s) = search urlPattern s.
Proof.
  intros Hc. rewrite search_unfold, exec_urlPattern.
  unfold match_at. cbn [strip_prefix].
  destruct (Ascii.eqb_spec "g"%char c) as [<-|_]; [congruence|reflexivity].
Qed.

Lemma search_at_start (s : string) (caps : list string) :
  match_at s = Some caps -> search urlPattern s = Some caps.
Proof. intros Hm. now rewrite search_unfold, exec_urlPattern, Hm. Qed.

(** X3. For a non-empty, slash-free owner and repo, the URL
    https://github.com/<owner>/<repo> parses to (owner, repo); whatever
    follows a slash after the repo is ignored; a suffix without a slash
    (such as .git or a query string) becomes part of the repo name. *)
Theorem https_url_parses (owner repo : string)
  (Ho : owner <> "") (Hr : repo <> "")
  (Hno : no_slash owner) (Hnr : no_slash repo) :
  (forall rest,
     search urlPattern ("https://github.com/" ++ owner ++ "/" ++ repo ++ "/" ++ rest)
     = Some [owner; repo])
  /\ (forall suffix,
        no_slash suffix ->
        search urlPattern ("https://github.com/" ++ owner ++ "/" ++ repo ++ suffix)
        = Some [owner; repo ++ suffix]).
Proof.
  assert (Hskip : forall x,
             search urlPattern ("https://" ++ x) = search urlPattern x).
  { intros x. cbn [append]. repeat (rewrite search_skip; [|discriminate]). reflexivity. }
  split.
  - intros rest.
    change ("https://github.com/" ++ owner ++ "/" ++ repo ++ "/" ++ rest)
      with ("https://" ++ "github.com/" ++ owner ++ "/" ++ repo ++ "/" ++ rest).
    rewrite Hskip. apply search_at_start.
    rewrite (match_at_exact owner repo ("/" ++ rest) Ho Hr Hno Hnr).
    cbn. now rewrite append_empty_r.
  - intros suffix Hs.
    change ("https://github.com/" ++ owner ++ "/" ++ repo ++ suffix)
      with ("https://" ++ "github.com/" ++ owner ++ "/" ++ repo ++ suffix).
    rewrite Hskip. apply search_at_start.
    rewrite (match_at_exact owner repo suffix Ho Hr Hno Hnr).
    now rewrite (span_whole suffix Hs).
Qed.

End RegexMore.

(** ** The mapping of one repository *)

Lemma project_nullish (k : string) (ks : list string) (v : JsVal) :
  nullish v = true ->
  exists e, project (k :: ks) v = Thrown e /\ response_status e = None.
Proof.
  destruct v; try discriminate; intros _; cbn [project get_prop];
    eexists; split; reflexivity.
Qed.

Lemma project_keys (keys : list string) (v : JsVal) :
  nullish v = false ->
  exists fs, project keys v = Normal fs /\ map fst fs = keys.
Proof.
  intros Hv. induction keys as [|k ks IH]; [now exists []|].
  destruct IH as (fs & Hfs & Hk). cbn [project]. rewrite Hfs.
  destruct v; try discriminate; cbn [get_prop];
    eexists; (split; [reflexivity|]); cbn [map fst]; now rewrite Hk.
Qed.

(** X4. The callback of the map turns every element other than null and
    undefined into an object with exactly the eight summary keys, in order;
    on an element that is not an object (a number, a string, an array) all
    eight values are undefined; on null and undefined it throws. *)
Theorem formatRepo_keys (v : JsVal) :
  (nullish v = false ->
   exists fs,
     formatRepo v = Normal (JObj fs) /\ map fst fs = repo_summary_keys
     /\ ((forall fields, v <> JObj fields) ->
         forall k, In k repo_summary_keys -> own_property k fs = JUndefined))
  /\ (nullish v = true -> exists e, formatRepo v = Thrown e).
Proof.
  split.
  - intros Hv. destruct v; try discriminate.
    1-4: eexists; split; [reflexivity|]; split; [reflexivity|];
         intros _ k Hk; cbn in Hk;
         repeat (destruct Hk as [<-|Hk]; [reflexivity|]); destruct Hk.
    destruct (project_keys repo_summary_keys (JObj fields) eq_refl) as (fs & Hfs & Hk).
    exists fs. unfold formatRepo. rewrite Hfs. repeat split; [exact Hk|].
    intros Hno. now destruct (Hno fields).
  - intros Hv. unfold formatRepo, repo_summary_keys.
    destruct (project_nullish "id"
                ["name"; "full_name"; "html_url"; "description"; "default_branch";
                 "visibility"; "updated_at"] v Hv) as (e & He & _).
    exists e. now rewrite He.
Qed.





Lemma not_401 (e : JsError) : response_status e <> Some 401 -> is_401 e = false.
Proof.
  unfold is_401. destruct (response_status e) as [s|]; [|reflexivity].
  intros Hs. apply Z.eqb_neq. congruence.
Qed.

(** Enter a lister with a resolved token: both ways of resolving it lead to
    the same continuation, with the Authorization header known. *)
Ltac js_resolve Hres :=
  let Hu := fresh "Hu" in
  let Hn := fresh "Hn" in
  let Hh := fresh "Hh" in
  let Ha := fresh "Ha" in
  destruct Hres as [Hu | [Hn Hu]];
  [ apply usable_token_header in Hu; destruct Hu as [Hh Ha];
    js_unfold; rewrite Hh; js_simpl; rewrite Ha
  | apply no_usable_token in Hn; apply usable_token_header in Hu;
    destruct Hu as [Hh Ha];
    js_unfold; rewrite Hn; js_simpl; rewrite Hh; js_simpl; rewrite Ha ].

Section MoreHandlerFacts.
Context {DB : Type} `{Supabase DB}.
Variable gh : Upstream.

(** ** getRepositories: the other answers of GitHub *)

(** X5. When the list call fails with anything but a 401, getRepositories
    answers with GitHub's status (500 when there was no response, or when
    the status is 0), the error "Failed to fetch repositories from GitHub"
    and the message of the failure; the table is not written. *)
Theorem repositories_upstream_failure
  (userId t : string) (e : JsError) (d : DB)
  (Hres : resolved_token d userId t)
  (Hgh : axios gh (listReposRequest ("token " ++ t)) = AxiosRejected e)
  (Hne : response_status e <> Some 401) :
  let r := run (getRepositories gh userId) d in
  exists resp,
    response_of r = Some resp
    /\ body resp
       = json_error_message "Failed to fetch repositories from GitHub" (message e)
    /\ (response_status e = None -> status resp = 500)
    /\ (response_status e = Some 0 -> status resp = 500)
    /\ (forall s, response_status e = Some s -> s <> 0 -> status resp = s)
    /\ final_db r = d
    /\ count is_db_write (calls r) = 0%nat.
Proof.
  apply not_401 in Hne.
  js_resolve Hres; rewrite Hgh; js_simpl; rewrite Hne; js_simpl;
    eexists; (split; [reflexivity|]); cbn [body status]; unfold status_or_500;
    (repeat split; [intros -> | intros -> | intros s -> Hs]);
    try reflexivity;
    (destruct (Z.eqb_spec s 0); [contradiction | reflexivity]).
Qed.


(** ** The calls to GitHub *)

Lemma has_token_resolved_first (userId : string) (d : DB) :
  has_token (data (select_single d "*" col_firebase_uid userId)) = true ->
  exists t,
    resolved_token d userId t
    /\ authorization_header (data (select_single d "*" col_firebase_uid userId))
       = Normal ("token " ++ t).
Proof.
  intros Hh. apply has_token_usable in Hh. destruct Hh as (t & Hu).
  exists t. split; [now left | now apply usable_token_header].
Qed.

Lemma has_token_resolved_second (userId : string) (d : DB) :
  has_token (data (select_single d "*" col_firebase_uid userId)) = false ->
  has_token (data (select_single d "*" col_id userId)) = true ->
  exists t,
    resolved_token d userId t
    /\ authorization_header (data (select_single d "*" col_id userId))
       = Normal ("token " ++ t).
Proof.
  intros Hn Hh. apply has_token_usable in Hh. destruct Hh as (t & Hu).
  exists t. split; [|now apply usable_token_header].
  right. split; [|exact Hu].
  intros t' Hu'. assert (Ht : has_token (data (select_single d "*" col_firebase_uid userId)) = true)
    by (apply has_token_usable; now exists t').
  congruence.
Qed.

(** Case analysis on the lookup of a lister: a token resolved under the
    first key, under the second, or none. *)
Ltac js_lookup d userId :=
  let H1 := fresh "H1" in
  let H2 := fresh "H2" in
  let t := fresh "t" in
  let Hres := fresh "Hres" in
  let Ha := fresh "Ha" in
  js_unfold;
  destruct (has_token (data (select_single d "*" col_firebase_uid userId))) eqn:H1;
  [ destruct (has_token_resolved_first userId d H1) as (t & Hres & Ha);
    js_simpl; rewrite Ha
  | js_simpl;
    destruct (has_token (data (select_single d "*" col_id userId))) eqn:H2;
    [ destruct (has_token_resolved_second userId d H1 H2) as (t & Hres & Ha);
      js_simpl; rewrite Ha
    | js_simpl ] ].

Ltac the_call :=
  match goal with
  | Hin : In (GitHubCall _) _ |- _ =>
      cbn in Hin;
      repeat (destruct Hin as [Hin|Hin]; [try discriminate Hin|]);
      try contradiction; inversion Hin; subst
  end.

(** X7. A lister calls GitHub at most once, and only with a token resolved
    from the table for the caller: getRepositories requests
    https://api.github.com/user/repos with sort=updated and per_page=100,
    getRepositoryBranches requests
    https://api.github.com/repos/<owner>/<repo>/branches, both with
    "Authorization: token <resolved token>" and the v3 Accept header. *)
Theorem lister_calls_authorized
  (userId owner repo : string) (req : Request) (d : DB) :
  let repos := calls (run (getRepositories gh userId) d) in
  let branches := calls (run (getRepositoryBranches gh userId owner repo) d) in
  (In (GitHubCall req) repos ->
   exists t,
     resolved_token d userId t
     /\ req = mkRequest "https://api.github.com/user/repos"
                [("sort", "updated"); ("per_page", "100")]
                ("token " ++ t) "application/vnd.github.v3+json")
  /\ (In (GitHubCall req) branches ->
      exists t,
        resolved_token d userId t
        /\ req = mkRequest
                   ("https://api.github.com/repos/" ++ owner ++ "/" ++ repo ++ "/branches")
                   [] ("token " ++ t) "application/vnd.github.v3+json")
  /\ (count is_github_call repos <= 1)%nat
  /\ (count is_github_call branches <= 1)%nat.
Proof.
  intros repos branches. subst repos branches.
  split; [|split; [|split]].
  - js_lookup d userId; repeat js_step; intros Hin; the_call;
      eexists; split; try eassumption; reflexivity.
  - js_lookup d userId; repeat js_step; intros Hin; the_call;
      eexists; split; try eassumption; reflexivity.
  - js_lookup d userId; repeat js_step; cbn; lia.
  - js_lookup d userId; repeat js_step; cbn; lia.
Qed.

(** ** getRepositoryBranches *)

(** X8. When GitHub answers the branches call with a 2xx status and a JSON
    body, getRepositoryBranches answers 200 with that body under "branches",
    unchanged, whatever its shape. *)
Theorem branches_pass_through
  (userId owner repo t : string) (st : Z) (v : JsVal) (d : DB)
  (Hres : resolved_token d userId t)
  (Hgh : fetch gh (branchesRequest owner repo ("token " ++ t))
         = FetchResolved st (Some v))
  (Hok : ok st = true) :
  let r := run (getRepositoryBranches gh userId owner repo) d in
  response_of r = Some (mkResponse 200 (JObj [("branches", v)]))
  /\ final_db r = d.
Proof.
  js_resolve Hres; rewrite Hgh; js_simpl; rewrite Hok; js_simpl;
    split; reflexivity.
Qed.

(** X9. When GitHub answers the branches call with a status outside
    200..299 and a JSON body, getRepositoryBranches answers with that same
    status and the error "Failed to fetch branches from GitHub"; GitHub's
    error body is not passed on, and on a 401 the stored token is kept. *)
Theorem branches_upstream_failure
  (userId owner repo t : string) (st : Z) (v : JsVal) (d : DB)
  (Hres : resolved_token d userId t)
  (Hgh : fetch gh (branchesRequest owner repo ("token " ++ t))
         = FetchResolved st (Some v))
  (Hok : ok st = false) :
  let r := run (getRepositoryBranches gh userId owner repo) d in
  response_of r
  = Some (mkResponse st (json_error "Failed to fetch branches from GitHub"))
  /\ final_db r = d
  /\ count is_db_write (calls r) = 0%nat.
Proof.
  js_resolve Hres; rewrite Hgh; js_simpl; rewrite Hok; js_simpl;
    repeat split.
Qed.

(** X10. When the branches call gets no response, or a response whose body
    is not JSON (whatever its status), getRepositoryBranches answers 500
    "Failed to fetch repository branches". *)
Theorem branches_unreadable_answer
  (userId owner repo t : string) (d : DB)
  (Hres : resolved_token d userId t)
  (Hgh : (exists e, fetch gh (branchesRequest owner repo ("token " ++ t))
                    = FetchRejected e)
         \/ (exists st, fetch gh (branchesRequest owner repo ("token " ++ t))
                        = FetchResolved st None)) :
  let r := run (getRepositoryBranches gh userId owner repo) d in
  response_of r
  = Some (mkResponse 500 (json_error "Failed to fetch repository branches"))
  /\ final_db r = d.
Proof.
  destruct Hgh as [(e & Hgh) | (st & Hgh)];
    js_resolve Hres; rewrite Hgh; js_simpl;
    try (destruct (ok st); js_simpl); split; reflexivity.
Qed.

(** ** validateRepository: the call and the answers *)

(** X11. With a URL that parses to (owner, repo) and a stored token,
    validateRepository makes exactly two calls whatever GitHub answers: the
    lookup by firebase_uid, then one request to
    https://api.github.com/repos/<owner>/<repo> with
    "Authorization: token <token>". *)
Theorem validator_request
  (userId : string) (reqBody : JsVal) (s owner repo : string)
  (u : UserRow) (t : string) (d : DB)
  (Hurl : get_prop reqBody "repositoryUrl" = Normal (JStr s))
  (Hm : Regex.search Regex.urlPattern s = Some [owner; repo])
  (Hq : select_single d "github_access_token" col_firebase_uid userId
        = mkQuery (Some u) None)
  (Ht : github_access_token u = Some t)
  (Hne : t <> "") :
  calls (run (validateRepository gh userId reqBody) d)
  = [DbSelectSingle "github_access_token" col_firebase_uid userId;
     GitHubCall
       (mkRequest ("https://api.github.com/repos/" ++ owner ++ "/" ++ repo)
          [] ("token " ++ t) "application/vnd.github.v3+json")].
Proof.
  assert (Hh : has_token (Some u) = true).
  { cbn. rewrite Ht. destruct t; congruence. }
  js_unfold. rewrite Hurl. cbn [string_match]. rewrite Hm.
  cbn [owner_repo nth]. js_simpl. rewrite Hq. cbn [data error]. rewrite Hh. js_simpl.
  cbn [authorization_header]. rewrite Ht.
  repeat js_step; reflexivity.
Qed.

(** X12. When the get-repository call gets no response, or a 2xx response
    whose body is not JSON or is null, validateRepository answers 500
    "Failed to validate repository". *)
Theorem validator_unreadable_answer
  (userId : string) (reqBody : JsVal) (s owner repo : string)
  (u : UserRow) (t : string) (d : DB)
  (Hurl : get_prop reqBody "repositoryUrl" = Normal (JStr s))
  (Hm : Regex.search Regex.urlPattern s = Some [owner; repo])
  (Hq : select_single d "github_access_token" col_firebase_uid userId
        = mkQuery (Some u) None)
  (Ht : github_access_token u = Some t)
  (Hne : t <> "")
  (Hgh : (exists e, fetch gh (repoRequest owner repo ("token " ++ t))
                    = FetchRejected e)
         \/ (exists st, ok st = true
                        /\ (fetch gh (repoRequest owner repo ("token " ++ t))
                            = FetchResolved st None
                            \/ fetch gh (repoRequest owner repo ("token " ++ t))
                               = FetchResolved st (Some JNull)))) :
  let r := run (validateRepository gh userId reqBody) d in
  response_of r = Some (mkResponse 500 (json_error "Failed to validate repository"))
  /\ final_db r = d.
Proof.
  assert (Hh : has_token (Some u) = true).
  { cbn. rewrite Ht. destruct t; congruence. }
  js_unfold. rewrite Hurl. cbn [string_match]. rewrite Hm.
  cbn [owner_repo nth]. js_simpl. rewrite Hq. cbn [data error]. rewrite Hh. js_simpl.
  cbn [authorization_header]. rewrite Ht.
  destruct Hgh as [(e & Hgh) | (st & Hok & [Hgh | Hgh])];
    rewrite Hgh; js_simpl; try rewrite Hok; js_simpl; split; reflexivity.
Qed.

(** X13. validateRepository always answers, with one of the statuses 200,
    400, 401, 403, 500.  It answers 200 only after GitHub answered its one
    request with a 2xx status and a JSON body, and "valid" is true in the
    body exactly in that case (it is absent from every other body). *)
Theorem validator_statuses (userId : string) (reqBody : JsVal) (d : DB) :
  let r := run (validateRepository gh userId reqBody) d in
  exists resp,
    fst r = Normal resp
    /\ In (status resp) [200; 400; 401; 403; 500]
    /\ (status resp = 200 ->
        get_prop (body resp) "valid" = Normal (JBool true)
        /\ exists req st v,
             calls r = [DbSelectSingle "github_access_token" col_firebase_uid userId;
                        GitHubCall req]
             /\ fetch gh req = FetchResolved st (Some v) /\ ok st = true)
    /\ (status resp <> 200 -> get_prop (body resp) "valid" = Normal JUndefined).
Proof.
  js_unfold. repeat js_step.
  all: eexists; (split; [reflexivity|]); cbn [status body];
       (split; [cbn; tauto|]);
       (split; [intros H200; try discriminate H200 | intros Hn; try reflexivity;
                                                    try (now destruct Hn)]).
  split; [reflexivity|]. do 3 eexists. repeat split; eassumption.
Qed.

(** X14. A stored token that is null or the empty string counts as no
    token in all three handlers: when no lookup yields a non-empty token
    they answer 401 "GitHub authentication required" without calling
    GitHub. *)
Theorem unusable_token_is_no_token
  (userId owner repo : string) (reqBody : JsVal) (s : string) (d : DB)
  (Hfb : forall t, ~ usable_token (select_single d "*" col_firebase_uid userId) t)
  (Hid : forall t, ~ usable_token (select_single d "*" col_id userId) t)
  (Hv : forall t,
      ~ usable_token (select_single d "github_access_token" col_firebase_uid userId) t)
  (Hurl : get_prop reqBody "repositoryUrl" = Normal (JStr s))
  (Hocc : Regex.occurs s) :
  let repos := run (getRepositories gh userId) d in
  let branches := run (getRepositoryBranches gh userId owner repo) d in
  let validation := run (validateRepository gh userId reqBody) d in
  response_of repos = Some no_token_response
  /\ response_of branches = Some no_token_response
  /\ response_of validation = Some (mkResponse 401 (json_error GitHubAuthRequired))
  /\ count is_github_call (calls repos) = 0%nat
  /\ count is_github_call (calls branches) = 0%nat
  /\ count is_github_call (calls validation) = 0%nat.
Proof.
  apply no_usable_token in Hfb, Hid, Hv.
  apply RegexFacts.occurs_search in Hocc.
  js_unfold. rewrite Hfb. js_simpl. rewrite Hid. js_simpl.
  rewrite Hurl. cbn [string_match].
  destruct (Regex.search Regex.urlPattern s) as [caps|]; [|congruence].
  destruct (owner_repo caps) as [o r]. js_simpl. rewrite Hv.
  rewrite !orb_true_r. js_simpl. repeat split.
Qed.



End MoreHandlerFacts.

(** ** Invalidation on the table, continued *)

Lemma column_eqb_clear_if (c c' : Column) (v v' : string) (u : UserRow) :
  column_eqb c' v' (clear_if c v u) = column_eqb c' v' u.
Proof. unfold clear_if. destruct (column_eqb c v u); [|reflexivity]. now destruct c'. Qed.

Lemma filter_update_any (c c' : Column) (v v' : string) (t : Table) :
  filter (column_eqb c' v') (table_update_token_null t c v)
  = map (clear_if c v) (filter (column_eqb c' v') t).
Proof.
  unfold table_update_token_null. fold (clear_if c v).
  induction t as [|u t IH]; [reflexivity|].
  cbn [map filter]. rewrite column_eqb_clear_if.
  destruct (column_eqb c' v' u); cbn [map]; now rewrite IH.
Qed.

(** A lookup after the update finds the row it found before, with its token
    or without. *)
Lemma usable_after_update (c c' : Column) (v v' cols tok : string) (t : Table) :
  usable_token (select_single (update_token_null t c v) cols c' v') tok ->
  usable_token (select_single t cols c' v') tok.
Proof.
  intros ((u & Hd & Ht) & Hne). split; [|exact Hne].
  change (select_single (update_token_null t c v) cols c' v')
    with (table_select_single (table_update_token_null t c v) cols c' v') in Hd.
  change (select_single t cols c' v') with (table_select_single t cols c' v').
  unfold table_select_single in *. rewrite filter_update_any in Hd.
  destruct (filter (column_eqb c' v') t) as [|u1 [|u2 rest]]; cbn in Hd; try discriminate.
  inversion Hd; subst u. exists u1. split; [reflexivity|].
  unfold clear_if in Ht. destruct (column_eqb c v u1); [discriminate | exact Ht].
Qed.

(** X17. After getRepositories has invalidated a token found under
    firebase_uid, and when the id lookup offers no other token, the next
    call of a lister for the same caller answers 401 "No GitHub access token
    found" without calling GitHub, and changes nothing more. *)
Theorem reconnect_after_invalidation
  (gh : Upstream) (userId owner repo tok : string) (e : JsError) (t : Table)
  (Hu : usable_token (select_single t "*" col_firebase_uid userId) tok)
  (Hid : forall tok', ~ usable_token (select_single t "*" col_id userId) tok')
  (Hgh : axios gh (listReposRequest ("token " ++ tok)) = AxiosRejected e)
  (He : response_status e = Some 401) :
  let first := run (getRepositories gh userId) t in
  let again := run (getRepositories gh userId) (final_db first) in
  let branches := run (getRepositoryBranches gh userId owner repo) (final_db first) in
  response_of first = Some token_rejected_response
  /\ response_of again = Some no_token_response
  /\ response_of branches = Some no_token_response
  /\ count is_github_call (calls again) = 0%nat
  /\ count is_github_call (calls branches) = 0%nat
  /\ final_db again = final_db first.
Proof.
  intros first again branches.
  pose proof (invalidation_by_firebase_uid gh userId tok e t Hu Hgh He) as Hfirst.
  cbv zeta in Hfirst. fold first in Hfirst. destruct Hfirst as (Hr & Hdb & Hnone).
  assert (H1 : has_token (data (select_single (final_db first) "*" col_firebase_uid userId))
               = false) by (apply no_nonnull_token; exact Hnone).
  assert (H2 : has_token (data (select_single (final_db first) "*" col_id userId)) = false).
  { apply no_usable_token. intros tok' Hu'. rewrite Hdb in Hu'.
    apply usable_after_update in Hu'. exact (Hid tok' Hu'). }
  split; [exact Hr|].
  subst again branches. generalize dependent (final_db first). intros t' _ _ H1 H2.
  js_unfold. rewrite H1. js_simpl. rewrite H2. js_simpl. repeat split.
Qed.

Lemma nth_error_update (c : Column) (v : string) (t : Table) (i : nat) :
  nth_error (table_update_token_null t c v) i
  = option_map (clear_if c v) (nth_error t i).
Proof. unfold table_update_token_null. fold (clear_if c v). apply nth_error_map. Qed.

Lemma update_keeps_columns (c : Column) (v : string) (t : Table) :
  map id (table_update_token_null t c v) = map id t
  /\ map firebase_uid (table_update_token_null t c v) = map firebase_uid t
  /\ map github_username (table_update_token_null t c v) = map github_username t.
Proof.
  unfold table_update_token_null. rewrite !map_map.
  repeat split; apply map_ext; intros u; destruct (column_eqb c v u); reflexivity.
Qed.

(** X18. Whatever GitHub answers, getRepositories leaves every row of the
    table in place with its id, firebase_uid and github_username; a row
    whose firebase_uid is not the caller identity is unchanged, and any
    other row is either unchanged or has lost its token. *)
Theorem other_rows_untouched (gh : Upstream) (userId : string) (t : Table) :
  let t' := final_db (run (getRepositories gh userId) t) in
  map id t' = map id t
  /\ map firebase_uid t' = map firebase_uid t
  /\ map github_username t' = map github_username t
  /\ (forall i u,
        nth_error t i = Some u -> firebase_uid u <> userId ->
        nth_error t' i = Some u)
  /\ (forall i u',
        nth_error t' i = Some u' ->
        exists u, nth_error t i = Some u /\ (u' = u \/ u' = null_token u)).
Proof.
  intros t'.
  pose proof (getRepositories_frame gh userId t) as Hframe.
  cbv zeta in Hframe. destruct Hframe as (_ & [(Hdb & _) | Hupd]).
  - fold t' in Hdb. rewrite Hdb.
    split; [reflexivity|]. split; [reflexivity|]. split; [reflexivity|]. split.
    + intros i u Hu _. exact Hu.
    + intros i u' Hi. exists u'. split; [exact Hi | now left].
  - destruct Hupd as (req & e & _ & _ & _ & _ & Hdb & _). fold t' in Hdb.
    change (update_token_null t col_firebase_uid userId)
      with (table_update_token_null t col_firebase_uid userId) in Hdb.
    rewrite Hdb.
    destruct (update_keeps_columns col_firebase_uid userId t) as (Hi & Hf & Hn).
    split; [exact Hi|]. split; [exact Hf|]. split; [exact Hn|]. split.
    + intros i u Hu Hne. rewrite nth_error_update, Hu. cbn [option_map].
      unfold clear_if, column_eqb.
      destruct (String.eqb_spec (firebase_uid u) userId); [contradiction|reflexivity].
    + intros i u' Hu'. rewrite nth_error_update in Hu'.
      destruct (nth_error t i) as [u|]; [|discriminate].
      exists u. split; [reflexivity|]. cbn [option_map] in Hu'. inversion Hu'.
      unfold clear_if. destruct (column_eqb col_firebase_uid userId u); [now right | now left].
Qed.

(** ** The further properties at concrete inputs *)

Lemma search_captures_witness :
  exists pre owner repo post,
    "https://github.com/acme/widgets"
    = pre ++ "github.com/" ++ owner ++ "/" ++ repo ++ post
    /\ ["acme"; "widgets"] = [owner; repo]
    /\ owner_repo ["acme"; "widgets"] = (owner, repo)
    /\ owner <> "" /\ repo <> "" /\ Regex.no_slash owner /\ Regex.no_slash repo.
Proof.
  apply (RegexMore.search_captures "https://github.com/acme/widgets" ["acme"; "widgets"]).
  reflexivity.
Defined.

Lemma search_leftmost_longest_witness :
  exists pre post,
    "git clone https://github.com/acme/widgets/tree/main"
    = pre ++ "github.com/" ++ "acme" ++ "/" ++ "widgets" ++ post
    /\ (post = "" \/ exists p, post = "/" ++ p)
    /\ forall p1 p2,
         pre = p1 ++ p2 -> p2 <> "" ->
         ~ pattern_at_start (p2 ++ "github.com/" ++ "acme" ++ "/" ++ "widgets" ++ post).
Proof.
  apply (RegexMore.search_leftmost_longest
           "git clone https://github.com/acme/widgets/tree/main" "acme" "widgets").
  reflexivity.
Defined.

Lemma https_url_parses_witness :
  Regex.search Regex.urlPattern "https://github.com/acme/widgets/tree/main"
  = Some ["acme"; "widgets"]
  /\ Regex.search Regex.urlPattern "https://github.com/acme/widgets.git"
     = Some ["acme"; "widgets.git"].
Proof.
  assert (Ha : Regex.no_slash "acme") by (cbn; repeat split).
  assert (Hw : Regex.no_slash "widgets") by (cbn; repeat split).
  assert (Hg : Regex.no_slash ".git") by (cbn; repeat split).
  destruct (RegexMore.https_url_parses "acme" "widgets") as [Hpath Hsuffix];
    try assumption; try discriminate.
  split; [exact (Hpath "tree/main") | exact (Hsuffix ".git" Hg)].
Defined.

Lemma formatRepo_keys_witness :
  (exists fs,
     formatRepo (JStr "widgets") = Normal (JObj fs)
     /\ map fst fs = repo_summary_keys
     /\ ((forall fields, JStr "widgets" <> JObj fields) ->
         forall k, In k repo_summary_keys -> own_property k fs = JUndefined))
  /\ exists e, formatRepo JNull = Thrown e.
Proof.
  split.
  - apply (proj1 (formatRepo_keys (JStr "widgets"))). reflexivity.
  - apply (proj2 (formatRepo_keys JNull)). reflexivity.
Defined.

Lemma alice_resolved_first : resolved_token sample_users "fb-alice" "gho_alice".
Proof. left. split; [now exists alice | discriminate]. Defined.

Lemma alice_resolved_second : resolved_token sample_users "42" "gho_alice".
Proof.
  right. split.
  - intros t ((u & Hd & _) & _). discriminate Hd.
  - split; [now exists alice | discriminate].
Defined.

Lemma repositories_upstream_failure_witness :
  let r := run (getRepositories upstream_403 "fb-alice") sample_users in
  exists resp,
    response_of r = Some resp
    /\ body resp
       = json_error_message "Failed to fetch repositories from GitHub"
           "Request failed with status code 403"
    /\ (Some 403 = None -> status resp = 500)
    /\ (Some 403 = Some 0 -> status resp = 500)
    /\ (forall s, Some 403 = Some s -> s <> 0 -> status resp = s)
    /\ final_db r = sample_users
    /\ count is_db_write (calls r) = 0%nat.
Proof.
  apply (repositories_upstream_failure upstream_403 "fb-alice" "gho_alice"
           (mkError "Request failed with status code 403" (Some 403)) sample_users).
  - exact alice_resolved_first.
  - reflexivity.
  - discriminate.
Defined.


Lemma lister_calls_authorized_witness :
  exists t,
    resolved_token sample_users "42" t
    /\ listReposRequest "token gho_alice"
       = mkRequest "https://api.github.com/user/repos"
           [("sort", "updated"); ("per_page", "100")]
           ("token " ++ t) "application/vnd.github.v3+json".
Proof.
  apply (proj1 (lister_calls_authorized upstream_ok "42" "acme" "widgets"
                  (listReposRequest "token gho_alice") sample_users)).
  cbn. tauto.
Defined.

Lemma branches_pass_through_witness :
  let r := run (getRepositoryBranches upstream_branches "fb-alice" "acme" "widgets")
             sample_users in
  response_of r = Some (mkResponse 200 (JObj [("branches", JArr [main_branch])]))
  /\ final_db r = sample_users.
Proof.
  apply (branches_pass_through upstream_branches "fb-alice" "acme" "widgets"
           "gho_alice" 200 (JArr [main_branch]) sample_users).
  - exact alice_resolved_first.
  - reflexivity.
  - reflexivity.
Defined.

Lemma branches_upstream_failure_witness :
  let r := run (getRepositoryBranches upstream_401 "fb-alice" "acme" "widgets")
             sample_users in
  response_of r
  = Some (mkResponse 401 (json_error "Failed to fetch branches from GitHub"))
  /\ final_db r = sample_users
  /\ count is_db_write (calls r) = 0%nat.
Proof.
  apply (branches_upstream_failure upstream_401 "fb-alice" "acme" "widgets"
           "gho_alice" 401 (JObj [("message", JStr "Bad credentials")]) sample_users).
  - exact alice_resolved_first.
  - reflexivity.
  - reflexivity.
Defined.

Lemma branches_unreadable_answer_witness :
  let r := run (getRepositoryBranches upstream_down "42" "acme" "widgets")
             sample_users in
  response_of r
  = Some (mkResponse 500 (json_error "Failed to fetch repository branches"))
  /\ final_db r = sample_users.
Proof.
  apply (branches_unreadable_answer upstream_down "42" "acme" "widgets"
           "gho_alice" sample_users).
  - exact alice_resolved_second.
  - left. exists (mkError "fetch failed" None). reflexivity.
Defined.

Lemma validator_request_witness :
  calls (run (validateRepository upstream_ok "fb-alice" acme_widgets_body) sample_users)
  = [DbSelectSingle "github_access_token" col_firebase_uid "fb-alice";
     GitHubCall
       (mkRequest "https://api.github.com/repos/acme/widgets"
          [] "token gho_alice" "application/vnd.github.v3+json")].
Proof.
  apply (validator_request upstream_ok "fb-alice" acme_widgets_body
           "https://github.com/acme/widgets" "acme" "widgets" alice "gho_alice"
           sample_users);
    try reflexivity.
  discriminate.
Defined.

Lemma validator_unreadable_answer_witness :
  let r := run (validateRepository upstream_null_item "fb-alice" acme_widgets_body)
             sample_users in
  response_of r = Some (mkResponse 500 (json_error "Failed to validate repository"))
  /\ final_db r = sample_users.
Proof.
  apply (validator_unreadable_answer upstream_null_item "fb-alice" acme_widgets_body
           "https://github.com/acme/widgets" "acme" "widgets" alice "gho_alice"
           sample_users);
    try reflexivity.
  - discriminate.
  - right. exists 200. split; [reflexivity|]. right. reflexivity.
Defined.

Lemma validator_statuses_witness :
  exists resp,
    fst (run (validateRepository upstream_404 "fb-alice" acme_widgets_body) sample_users)
    = Normal resp
    /\ In (status resp) [200; 400; 401; 403; 500].
Proof.
  destruct (validator_statuses upstream_404 "fb-alice" acme_widgets_body sample_users)
    as (resp & Hr & Hs & _).
  exists resp. split; assumption.
Defined.

Lemma unusable_token_is_no_token_witness :
  let repos := run (getRepositories upstream_ok "fb-carol") sample_users in
  let branches :=
    run (getRepositoryBranches upstream_ok "fb-carol" "acme" "widgets") sample_users in
  let validation :=
    run (validateRepository upstream_ok "fb-carol" acme_widgets_body) sample_users in
  response_of repos = Some no_token_response
  /\ response_of branches = Some no_token_response
  /\ response_of validation = Some (mkResponse 401 (json_error GitHubAuthRequired))
  /\ count is_github_call (calls repos) = 0%nat
  /\ count is_github_call (calls branches) = 0%nat
  /\ count is_github_call (calls validation) = 0%nat.
Proof.
  apply (unusable_token_is_no_token upstream_ok "fb-carol" "acme" "widgets"
           acme_widgets_body "https://github.com/acme/widgets" sample_users).
  - intros t ((u & Hd & Ht) & Hne). vm_compute in Hd. inversion Hd; subst u.
    vm_compute in Ht. congruence.
  - intros t ((u & Hd & _) & _). discriminate Hd.
  - intros t ((u & Hd & Ht) & Hne). vm_compute in Hd. inversion Hd; subst u.
    vm_compute in Ht. congruence.
  - reflexivity.
  - apply (RegexFacts.search_occurs _ ["acme"; "widgets"]). reflexivity.
Defined.


Lemma reconnect_after_invalidation_witness :
  let first := run (getRepositories upstream_401 "fb-alice") sample_users in
  let again := run (getRepositories upstream_401 "fb-alice") (final_db first) in
  let branches :=
    run (getRepositoryBranches upstream_401 "fb-alice" "acme" "widgets")
      (final_db first) in
  response_of first = Some token_rejected_response
  /\ response_of again = Some no_token_response
  /\ response_of branches = Some no_token_response
  /\ count is_github_call (calls again) = 0%nat
  /\ count is_github_call (calls branches) = 0%nat
  /\ final_db again = final_db first.
Proof.
  apply (reconnect_after_invalidation upstream_401 "fb-alice" "acme" "widgets"
           "gho_alice" (mkError "Request failed with status code 401" (Some 401))
           sample_users).
  - split; [now exists alice | discriminate].
  - intros t ((u & Hd & _) & _). discriminate Hd.
  - reflexivity.
  - reflexivity.
Defined.

Lemma other_rows_untouched_witness :
  nth_error (final_db (run (getRepositories upstream_401 "fb-alice") sample_users)) 2
  = Some carol.
Proof.
  destruct (other_rows_untouched upstream_401 "fb-alice" sample_users)
    as (_ & _ & _ & Hother & _).
  apply Hother; [reflexivity | discriminate].
Defined.
